(** * Web search skill: rewrite, search, fetch, assemble

    A shallow embedding of the Python package [web_search_skill_glm]
    (models.py, fetch_jina.py, query_rewriter.py, search_serper.py,
    web_search_skill.py) together with the properties of its result
    aggregation contract.

    Python [str] values are sequences of Unicode code points, so they are
    modelled as [list N]; [len], slicing and the CJK range test of the
    rewriter all count code points, not bytes. *)

From Stdlib Require Import ZArith NArith Lia Ascii String Decimal SpecFloat Sorted.
From stdpp Require Import base list gmap sets.

Set Warnings "-register-all".

Local Open Scope N_scope.

(** ** Python strings *)

Module PyStr.

Definition str := list N.

(** String literals are written in UTF-8 in this file and decoded to code
    points once. *)
Fixpoint utf8_go (acc : N) (need : nat) (bs : list N) : str :=
  match bs with
  | [] => []
  | b :: r =>
    match need with
    | O =>
      if b <? 128 then b :: utf8_go 0 0 r
      else if b <? 224 then utf8_go (N.land b 31) 1 r
      else if b <? 240 then utf8_go (N.land b 15) 2 r
      else utf8_go (N.land b 7) 3 r
    | S O => (acc * 64 + N.land b 63) :: utf8_go 0 0 r
    | S n => utf8_go (acc * 64 + N.land b 63) n r
    end
  end.

Definition u8 (s : string) : str :=
  utf8_go 0 0 (map N_of_ascii (list_ascii_of_string s)).

Definition LF : N := 10.

(** [len(s)] as a Python int. *)
Definition len (s : str) : Z := Z.of_nat (length s).

Fixpoint eqb (s t : str) : bool :=
  match s, t with
  | [], [] => true
  | c :: s', d :: t' => (c =? d) && eqb s' t'
  | _, _ => false
  end.

(** [s.startswith(p)] *)
Fixpoint startswith (s p : str) : bool :=
  match p, s with
  | [], _ => true
  | c :: p', d :: s' => (c =? d) && startswith s' p'
  | _ :: _, [] => false
  end.

(** [s.endswith(p)] *)
Definition endswith (s p : str) : bool := startswith (rev s) (rev p).

(** [p in s] *)
Fixpoint contains (s p : str) : bool :=
  startswith s p ||
  match s with
  | [] => false
  | _ :: s' => contains s' p
  end.

(** [str.isspace] on one code point (the set used by [strip] and by [\s]
    in [re] for str patterns). *)
Definition isspace (c : N) : bool :=
  ((9 <=? c) && (c <=? 13)) || ((28 <=? c) && (c <=? 32))
  || (c =? 133) || (c =? 160) || (c =? 5760)
  || ((8192 <=? c) && (c <=? 8202))
  || (c =? 8232) || (c =? 8233) || (c =? 8239) || (c =? 8287)
  || (c =? 12288).

Fixpoint lstrip_by (p : N -> bool) (s : str) : str :=
  match s with
  | [] => []
  | c :: s' => if p c then lstrip_by p s' else s
  end.

Definition rstrip_by (p : N -> bool) (s : str) : str :=
  rev (lstrip_by p (rev s)).

(** [s.strip()] *)
Definition strip (s : str) : str := rstrip_by isspace (lstrip_by isspace s).

(** [s.lstrip(chars)] *)
Definition lstrip_chars (chars s : str) : str :=
  lstrip_by (fun c => existsb (N.eqb c) chars) s.

(** [s[:n]] for a Python int [n]: a negative bound counts from the end. *)
Definition slice_to (n : Z) (s : str) : str :=
  if (0 <=? n)%Z then take (Z.to_nat n) s
  else take (Z.to_nat (len s + n)) s.

(** [s[n:]] for [0 <= n]. *)
Definition slice_from (n : nat) (s : str) : str := drop n s.

(** [s.split(sep)] for a one-character separator. *)
Fixpoint split_on (sep : N) (s : str) : list str :=
  match s with
  | [] => [[]]
  | c :: s' =>
    if c =? sep then [] :: split_on sep s'
    else match split_on sep s' with
         | [] => [[c]]
         | w :: ws => (c :: w) :: ws
         end
  end.

(** [sep.join(parts)] *)
Fixpoint join (sep : str) (parts : list str) : str :=
  match parts with
  | [] => []
  | [x] => x
  | x :: rest => x ++ sep ++ join sep rest
  end.

(** [s.find(c)] for one character: index of the first occurrence. *)
Fixpoint find_char (c : N) (s : str) : option nat :=
  match s with
  | [] => None
  | d :: s' => if d =? c then Some O else S <$> find_char c s'
  end.

(** Decimal rendering of ints, as [str(n)] and [f"{n}"] give it. *)
Fixpoint of_uint (d : Decimal.uint) : str :=
  match d with
  | Nil => []
  | D0 d => 48 :: of_uint d
  | D1 d => 49 :: of_uint d
  | D2 d => 50 :: of_uint d
  | D3 d => 51 :: of_uint d
  | D4 d => 52 :: of_uint d
  | D5 d => 53 :: of_uint d
  | D6 d => 54 :: of_uint d
  | D7 d => 55 :: of_uint d
  | D8 d => 56 :: of_uint d
  | D9 d => 57 :: of_uint d
  end.

Definition of_nat (n : nat) : str := of_uint (Nat.to_uint n).

Definition of_Z (z : Z) : str :=
  match Z.to_int z with
  | Pos d => of_uint d
  | Neg d => 45 :: of_uint d
  end.

(** ASCII part of [str.lower]. *)
Definition ascii_lower_char (c : N) : N :=
  if (65 <=? c) && (c <=? 90) then c + 32 else c.

Definition ascii_lower (s : str) : str := map ascii_lower_char s.

End PyStr.

Import PyStr.

(** ** Python values, exceptions and results *)

Module Py.

(** What [json.loads] and [response.json()] produce. *)
Inductive value :=
| VNone
| VBool (b : bool)
| VInt (z : Z)
| VFloat (f : SpecFloat.spec_float)
| VStr (s : str)
| VList (l : list value)
| VDict (d : list (str * value)).

(** The exception classes the rewriter meets, all subclasses of
    [Exception].  [JSONDecodeError], [UnicodeEncodeError] and
    [UnicodeDecodeError] are subclasses of [ValueError]; [ValueError]
    stands for the class itself and for its other subclasses.
    [TransportError] stands for the errors of the HTTP client (timeout,
    connection), [Exception] for every class that is not listed. *)
Inductive exn :=
| HTTPStatusError (status_code : Z)
| TransportError
| JSONDecodeError
| UnicodeEncodeError
| UnicodeDecodeError
| ValueError
| RecursionError
| KeyError
| IndexError
| TypeError
| AttributeError
| UnboundLocalError
| Exception.

Inductive result (A : Type) :=
| Ret (a : A)
| Raise (e : exn).

Arguments Ret {A} a.
Arguments Raise {A} e.

Definition bind {A B} (m : result A) (k : A -> result B) : result B :=
  match m with
  | Ret a => k a
  | Raise e => Raise e
  end.

Definition truthy (v : value) : bool :=
  match v with
  | VNone => false
  | VBool b => b
  | VInt z => negb (z =? 0)%Z
  | VFloat (SpecFloat.S754_zero _) => false
  | VFloat _ => true
  | VStr s => negb (eqb s [])
  | VList l => match l with [] => false | _ => true end
  | VDict d => match d with [] => false | _ => true end
  end.

Fixpoint assoc (k : str) (d : list (str * value)) : option value :=
  match d with
  | [] => None
  | (k', v) :: d' => if eqb k k' then Some v else assoc k d'
  end.

Definition is_str (k : str) (v : value) : bool :=
  match v with
  | VStr s => eqb k s
  | _ => false
  end.

(** [k in v] for a str [k]. *)
Definition contains_str (v : value) (k : str) : result bool :=
  match v with
  | VDict d => Ret (match assoc k d with Some _ => true | None => false end)
  | VList l => Ret (existsb (is_str k) l)
  | VStr s => Ret (contains s k)
  | _ => Raise TypeError
  end.

(** [v[k]] for a str [k]. *)
Definition getitem_str (v : value) (k : str) : result value :=
  match v with
  | VDict d => match assoc k d with Some x => Ret x | None => Raise KeyError end
  | _ => Raise TypeError
  end.

(** [v[0]] *)
Definition getitem_0 (v : value) : result value :=
  match v with
  | VList (x :: _) => Ret x
  | VList [] => Raise IndexError
  | VStr (c :: _) => Ret (VStr [c])
  | VStr [] => Raise IndexError
  | VDict _ => Raise KeyError
  | _ => Raise TypeError
  end.

(** [v[:3]]; a dict rejects the slice key with [TypeError] (unhashable)
    or, from Python 3.12 on, [KeyError]: both plain [Exception]s. *)
Definition slice_3 (v : value) : result value :=
  match v with
  | VList l => Ret (VList (take 3 l))
  | VStr s => Ret (VStr (take 3 s))
  | _ => Raise TypeError
  end.

(** [v.get(k, default)] *)
Definition dict_get (v : value) (k : str) (default : value) : result value :=
  match v with
  | VDict d => Ret (match assoc k d with Some x => x | None => default end)
  | _ => Raise AttributeError
  end.

(** [v.strip()] *)
Definition str_strip (v : value) : result str :=
  match v with
  | VStr s => Ret (strip s)
  | _ => Raise AttributeError
  end.

(** The number of items [for x in v] runs over; a dict is iterated by its
    keys. *)
Definition iter_len (v : value) : result nat :=
  match v with
  | VList l => Ret (length l)
  | VStr s => Ret (length s)
  | VDict d => Ret (length (remove_dups (fst <$> d)))
  | _ => Raise TypeError
  end.

(** Truthiness of an optional str argument ([None] and the empty str are
    falsy). *)
Definition given (o : option str) : option str :=
  match o with
  | Some (c :: s) => Some (c :: s)
  | _ => None
  end.

End Py.

Notation "'let*' x := m 'in' k" := (Py.bind m (fun x => k))
  (at level 10, x name, m at level 100, k at level 200).

(** ** models.py: the data model and the bundle rendering *)

Module SearchSource.
Record t := mk { title : str; url : str; snippet : str; position : nat }.
End SearchSource.

Module FetchedContent.
Record t := mk {
  url : str;
  title : str;
  content : str;
  word_count : Z;
  success : bool;
  error : option str
}.
End FetchedContent.

Module Reference.
(** One entry of [get_reference_list]: the dict with keys index, title, url. *)
Record t := mk { index : nat; title : str; url : str }.
End Reference.

Module SearchResult.

(** [search_queries] is annotated [list[str]]; the dataclass stores the
    value the rewriter returned, whatever it is. *)
Record t := mk {
  query : str;
  search_queries : Py.value;
  sources : list SearchSource.t;
  contents : list FetchedContent.t
}.

Definition truncation_marker : str := LF :: u8 "...[内容已截断]".

Definition source_heading_prefix : str := u8 "### Source [".

Definition summary_heading : str :=
  u8 "### 搜索摘要 (未能抓取正文，以下为搜索引擎摘要):" ++ [LF].

Definition query_heading (q : str) : str :=
  u8 "## 搜索结果 (Query: " ++ q ++ u8 ")" ++ [LF].

(** The per-source cap: [text] is cut when it is longer than
    [max_tokens_per_source * 4] characters. *)
Definition cap_text (max_tokens_per_source : Z) (text : str) : str :=
  if (max_tokens_per_source * 4 <? len text)%Z
  then slice_to (max_tokens_per_source * 4) text ++ truncation_marker
  else text.

(** The three parts appended for the page at enumerate index [i]; nothing
    for a page that did not succeed ([continue]). *)
Definition content_parts (max_tokens_per_source : Z) (i : nat)
    (c : FetchedContent.t) : list str :=
  if negb (FetchedContent.success c) then []
  else
    [ source_heading_prefix ++ of_nat (i + 1) ++ u8 "]: " ++ FetchedContent.title c;
      u8 "URL: " ++ FetchedContent.url c;
      cap_text max_tokens_per_source (FetchedContent.content c) ++ [LF] ].

(** The three parts appended for the source at enumerate index [i]. *)
Definition source_parts (i : nat) (s : SearchSource.t) : list str :=
  [ u8 "[" ++ of_nat (i + 1) ++ u8 "] " ++ SearchSource.title s;
    u8 "    URL: " ++ SearchSource.url s;
    u8 "    " ++ SearchSource.snippet s ++ [LF] ].

(** [for i, x in enumerate(xs)] with a body that extends [parts]. *)
Fixpoint enumerate_from {A B} (body : nat -> A -> list B) (i : nat)
    (xs : list A) : list B :=
  match xs with
  | [] => []
  | x :: xs' => body i x ++ enumerate_from body (S i) xs'
  end.

(** The list [parts] as [to_context_string] has built it before joining. *)
Definition to_context_parts (r : t) (max_tokens_per_source : Z) : list str :=
  [query_heading (query r)]
  ++ enumerate_from (content_parts max_tokens_per_source) 0 (contents r)
  ++ (if negb (existsb FetchedContent.success (contents r))
      then summary_heading :: enumerate_from source_parts 0 (sources r)
      else []).

Definition to_context_string (r : t) (max_tokens_per_source : Z) : str :=
  join [LF] (to_context_parts r max_tokens_per_source).

Definition reference_of (i : nat) (c : FetchedContent.t) : list Reference.t :=
  if FetchedContent.success c
  then [Reference.mk (i + 1) (FetchedContent.title c) (FetchedContent.url c)]
  else [].

Definition get_reference_list (r : t) : list Reference.t :=
  enumerate_from reference_of 0 (contents r).

End SearchResult.

(** ** fetch_jina.py: cleaning, single fetch, batch fetch *)

Module JinaFetcher.

(** The test of the navigation-menu heuristic on a stripped line. *)
Definition is_short_link (stripped : str) : bool :=
  startswith stripped (u8 "[") && endswith stripped (u8 ")")
  && (len stripped <? 80)%Z.

Definition is_image (stripped : str) : bool :=
  startswith stripped (u8 "![") && contains stripped (u8 "](").

Definition has_blob (stripped : str) : bool := contains stripped (u8 "blob:").

(** The loop of [_clean_content], with the counter
    [consecutive_short_links] as the loop state. *)
Fixpoint clean_lines (consecutive_short_links : nat) (lines : list str)
    : list str :=
  match lines with
  | [] => []
  | line :: rest =>
    let stripped := strip line in
    let n := if is_short_link stripped then S consecutive_short_links else O in
    if is_short_link stripped && (3 <? n)%nat then clean_lines n rest
    else if is_image stripped then clean_lines n rest
    else if has_blob stripped then clean_lines n rest
    else line :: clean_lines n rest
  end.

Definition clean_content (text : str) : str :=
  join [LF] (clean_lines 0 (split_on LF text)).

Definition truncation_marker : str := [LF; LF] ++ u8 "...[内容已截断]".

(** The title loop of [fetch_one]. *)
Fixpoint extract_title (lines : list str) : str :=
  match lines with
  | [] => []
  | line :: rest =>
    if startswith (strip line) (u8 "#")
    then strip (lstrip_chars (u8 "#") (strip line))
    else match strip line with
         | [] => extract_title rest
         | _ :: _ => slice_to 100 (strip line)
         end
  end.

(** What the HTTP exchange of one fetch comes to. *)
Inductive http_result :=
| TimeoutException
| HTTPStatusError (status_code : Z)
| OtherException (message : str)
| Response (text : str).

(** The body kept for a response text: cleaned, then cut at [max_length]. *)
Definition bounded_content (max_length : Z) (text : str) : str :=
  let content := clean_content text in
  if (max_length <? len content)%Z
  then slice_to max_length content ++ truncation_marker
  else content.

Definition failed (url : str) (error : str) : FetchedContent.t :=
  FetchedContent.mk url [] [] 0 false (Some error).

(** [fetch_one]; the float [timeout] reaches the result only through its
    rendering in the timeout message, so it is passed as that rendering. *)
Definition fetch_one (url : str) (timeout : str) (max_length : Z)
    (exchange : http_result) : FetchedContent.t :=
  match exchange with
  | Response text =>
    let content := bounded_content max_length text in
    let title := extract_title (split_on LF content) in
    FetchedContent.mk url title content (len content) true None
  | TimeoutException =>
    failed url (u8 "超时 (" ++ timeout ++ u8 "s)")
  | HTTPStatusError status_code =>
    failed url (u8 "HTTP " ++ of_Z status_code)
  | OtherException message => failed url message
  end.

(** [fetch_many]: one task per url, started in input order; a task holds a
    semaphore slot while its fetch is in flight; [asyncio.gather] keeps one
    result slot per task, in argument order.  [network i] is what the
    exchange of task [i] comes to. *)
Section FetchMany.

Variable urls : list str.
Variable max_concurrent : Z.
Variable timeout : str.
Variable max_length : Z.
Variable network : nat -> http_result.

Record gather_state := GatherState {
  waiting : list nat;
  in_flight : list nat;
  slots : list (option FetchedContent.t)
}.

Definition gather_init : gather_state :=
  GatherState (seq 0 (length urls)) [] (replicate (length urls) None).

Definition task_result (i : nat) : option FetchedContent.t :=
  (fun url => fetch_one url timeout max_length (network i)) <$> urls !! i.

Inductive gather_step : gather_state -> gather_state -> Prop :=
| step_acquire i w r s :
    (Z.of_nat (length r) < max_concurrent)%Z ->
    gather_step (GatherState (i :: w) r s) (GatherState w (r ++ [i]) s)
| step_complete i w r1 r2 s :
    gather_step (GatherState w (r1 ++ i :: r2) s)
                (GatherState w (r1 ++ r2) (<[i := task_result i]> s)).

Definition gather_done (st : gather_state) : Prop :=
  waiting st = [] /\ in_flight st = [].

(** The value [gather] hands back once every task is done. *)
Definition gather_result (st : gather_state) : option (list FetchedContent.t) :=
  mapM id (slots st).

(** [fetch_many urls max_concurrent timeout max_length network res]: the
    call returns [res], on some run of its tasks. *)
Definition fetch_many (res : list FetchedContent.t) : Prop :=
  exists st, rtc gather_step gather_init st /\ gather_done st
             /\ gather_result st = Some res.

End FetchMany.

End JinaFetcher.

(** ** query_rewriter.py *)

Module QueryRewriter.

Import Py.

Record RulePlan := mkRulePlan {
  rule_queries : list str;
  rule_language : str;
  rule_time_filter : option str;
  rule_search_type : str
}.

(** The dict returned by [rewrite]: on the LLM path its values are whatever
    the model's JSON held. *)
Record Plan := mkPlan {
  search_queries : value;
  language : value;
  time_filter : value;
  search_type : value
}.

Definition plan_of_rules (p : RulePlan) : Plan :=
  mkPlan (VList (VStr <$> rule_queries p))
         (VStr (rule_language p))
         (match rule_time_filter p with Some s => VStr s | None => VNone end)
         (VStr (rule_search_type p)).

Definition news_keywords : list str :=
  [u8 "最新"; u8 "今天"; u8 "今日"; u8 "昨天"; u8 "本周";
   u8 "latest"; u8 "today"; u8 "yesterday"; u8 "this week";
   u8 "新闻"; u8 "news"; u8 "刚刚"; u8 "breaking"].

Definition news_type_keywords : list str :=
  [u8 "新闻"; u8 "news"; u8 "最新消息"; u8 "事件"].

Definition prefix_words : list str :=
  [u8 "请问"; u8 "帮我查一下"; u8 "帮我查"; u8 "帮我搜一下";
   u8 "帮我搜"; u8 "帮我"; u8 "我想知道"; u8 "可以告诉我";
   u8 "你能帮我"; u8 "能不能帮我"].

Definition location_keywords : list str :=
  [u8 "附近"; u8 "周围"; u8 "哪里"; u8 "推荐"; u8 "餐厅"; u8 "酒店";
   u8 "near"; u8 "nearby"; u8 "restaurant"; u8 "hotel"].

(** [len(re.findall(r'[\u4e00-\u9fff]', query))]: the code points
    19968 to 40959. *)
Definition chinese_chars (query : str) : Z :=
  len (filter (fun c => (19968 <=? c) && (c <=? 40959) = true) query).

(** The loop over [prefix_words]: the first matching word is cut. *)
Fixpoint cut_prefix (words : list str) (simplified : str) : str :=
  match words with
  | [] => simplified
  | word :: rest =>
    if startswith simplified word
    then strip (slice_from (length word) simplified)
    else cut_prefix rest simplified
  end.

Section Rules.

(** [str.lower], Python's Unicode lowercase mapping. *)
Variable lower : str -> str.

(** [_rewrite_with_rules].  [chinese_chars > len(query) * 0.3] compares an
    integer with a float product; for every length below 2^53 it agrees
    with the integer comparison [3 * len(query) < 10 * chinese_chars]. *)
Definition rewrite_with_rules (user_query : str) (user_location : option str)
    (user_language : str) : RulePlan :=
  let query := strip user_query in
  let is_chinese := (3 * len query <? 10 * chinese_chars query)%Z in
  let language := if is_chinese then u8 "zh-cn" else u8 "en" in
  let time_filter :=
    if existsb (fun kw => contains (lower query) kw) news_keywords
    then Some (u8 "w") else None in
  let time_filter :=
    if startswith query (u8 "最近") then Some (u8 "m") else time_filter in
  let search_type :=
    if existsb (fun kw => contains query kw) news_type_keywords
    then u8 "news" else u8 "search" in
  let search_queries :=
    if (15 <? len query)%Z then
      let simplified := cut_prefix prefix_words query in
      if negb (eqb simplified []) && negb (eqb simplified query)
      then [simplified; query] else [query]
    else [query] in
  let search_queries :=
    match given user_location with
    | Some location =>
      if existsb (fun kw => contains query kw) location_keywords
      then search_queries ++ [query ++ u8 " " ++ location]
      else search_queries
    | None => search_queries
    end in
  mkRulePlan (take 3 search_queries) language time_filter search_type.

(** [json.loads]: the decoded value, or the error it raises
    ([JSONDecodeError] for a text that is not JSON; [RecursionError] and a
    plain [ValueError] are among the others). *)
Variable json_loads : str -> result value.

(** The brace scan of [_extract_json_from_text], from index [i] on: the
    index of the brace that brings [depth] back to 0. *)
Fixpoint closing_brace (depth : Z) (i : nat) (s : str) : option nat :=
  match s with
  | [] => None
  | c :: s' =>
    if c =? 123 then closing_brace (depth + 1) (S i) s'
    else if c =? 125 then
      if (depth - 1 =? 0)%Z then Some i
      else closing_brace (depth - 1) (S i) s'
    else closing_brace depth (S i) s'
  end.

(** Only a [JSONDecodeError] of the first decoding leads to the brace
    scan; any other error leaves the function. *)
Definition extract_json_from_text (text : str) : result value :=
  let text := strip text in
  match json_loads text with
  | Ret v => Ret v
  | Raise JSONDecodeError =>
    match find_char 123 text with
    | None => Raise ValueError
    | Some start =>
      match closing_brace 0 start (drop start text) with
      | Some i => json_loads (take (i + 1 - start) (drop start text))
      | None => Raise ValueError
      end
    end
  | Raise e => Raise e
  end.

(** [re.sub(fence + r'\s*', '', text)]: every occurrence of [fence], with
    the white space after it, is removed, scanning left to right. *)
Fixpoint remove_fence (fence : str) (skip : nat) (eating : bool) (s : str)
    : str :=
  match s with
  | [] => []
  | c :: s' =>
    match skip with
    | S k => remove_fence fence k true s'
    | O =>
      if eating && isspace c then remove_fence fence 0 true s'
      else if startswith s fence
      then remove_fence fence (length fence - 1) true s'
      else c :: remove_fence fence 0 false s'
    end
  end.

Definition fence_json : str := u8 "```json".
Definition fence : str := u8 "```".

(** What the single chat-completion request comes to: building or sending
    it raised [e] (a transport error, or for instance [UnicodeEncodeError]
    for a key that the header cannot carry); [raise_for_status] raised;
    or a response arrived, [json] being what [response.json()] returns or
    raises ([JSONDecodeError], or [UnicodeDecodeError] for a body that is
    not UTF-8). *)
Inductive llm_exchange :=
| RequestFailed (e : exn)
| StatusError (status_code : Z)
| Response (json : result value).

(** The try block up to the first assignment of [text]. *)
Definition message_content (exchange : llm_exchange) : result str :=
  match exchange with
  | RequestFailed e => Raise e
  | StatusError status_code => Raise (HTTPStatusError status_code)
  | Response (Raise e) => Raise e
  | Response (Ret data) =>
    let* choices := getitem_str data (u8 "choices") in
    let* choice := getitem_0 choices in
    let* message := getitem_str choice (u8 "message") in
    let* content := getitem_str message (u8 "content") in
    str_strip content
  end.

Definition clean_fences (text : str) : str :=
  strip (remove_fence fence 0 false (remove_fence fence_json 0 false text)).

(** The rest of the try block, with [text] bound. *)
Definition plan_of_text (text : str) : result Plan :=
  match text with
  | [] => Raise ValueError
  | _ :: _ =>
    let* result := extract_json_from_text text in
    let* present := contains_str result (u8 "search_queries") in
    if negb present then Raise ValueError
    else
      let* queries := getitem_str result (u8 "search_queries") in
      if negb (truthy queries) then Raise ValueError
      else
        let* queries3 := slice_3 queries in
        let* language := dict_get result (u8 "language") (VStr (u8 "zh-cn")) in
        let* time_filter := dict_get result (u8 "time_filter") VNone in
        let* search_type := dict_get result (u8 "search_type") (VStr (u8 "search")) in
        Ret (mkPlan queries3 language time_filter search_type)
  end.

(** The except clauses, in order; [text] is the binding of the local
    variable [text] when the exception was raised ([None]: not yet
    assigned).  The clauses for [JSONDecodeError] and [ValueError] (which
    takes its other subclasses too) build a preview from [text] before
    they fall back.  The warnings the clauses print are left out. *)
Definition handle (text : option str) (e : exn) (fallback : Plan)
    : result Plan :=
  match e with
  | HTTPStatusError _ => Ret fallback
  | JSONDecodeError =>
    match text with
    | Some _ => Ret fallback
    | None => Raise UnboundLocalError
    end
  | ValueError | UnicodeEncodeError | UnicodeDecodeError =>
    match text with
    | Some _ => Ret fallback
    | None => Raise UnboundLocalError
    end
  | _ => Ret fallback
  end.

Definition rewrite_with_llm (user_query : str) (user_location : option str)
    (user_language : str) (exchange : llm_exchange) : result Plan :=
  let fallback :=
    plan_of_rules (rewrite_with_rules user_query user_location user_language) in
  match message_content exchange with
  | Raise e => handle None e fallback
  | Ret content =>
    let text := clean_fences content in
    match plan_of_text text with
    | Ret plan => Ret plan
    | Raise e => handle (Some text) e fallback
    end
  end.

(** [rewrite]: the LLM path when a key is configured, else the rules. *)
Definition rewrite (llm_api_key : option str) (user_query : str)
    (user_location : option str) (user_language : str)
    (exchange : llm_exchange) : result Plan :=
  match given llm_api_key with
  | Some _ => rewrite_with_llm user_query user_location user_language exchange
  | None =>
    Ret (plan_of_rules (rewrite_with_rules user_query user_location user_language))
  end.

End Rules.

End QueryRewriter.

(** ** search_serper.py *)

Module SerperSearch.

Import Py.

(** The request body [payload]: a dict from field names to values. *)
Definition build_payload (query : str) (num_results : Z)
    (country language time_period : option str) : gmap str value :=
  let payload : gmap str value :=
    <[u8 "num" := VInt num_results]> (<[u8 "q" := VStr query]> ∅) in
  let payload :=
    match given country with
    | Some c => <[u8 "gl" := VStr c]> payload
    | None => payload
    end in
  let payload :=
    match given language with
    | Some l => <[u8 "hl" := VStr l]> payload
    | None => payload
    end in
  match given time_period with
  | Some t => <[u8 "tbs" := VStr (u8 "qdr:" ++ t)]> payload
  | None => payload
  end.

(** One entry of the response's [organic] list; a missing key reads as "". *)
Record organic_item := mkItem {
  item_title : option str;
  item_link : option str;
  item_snippet : option str
}.

Definition source_of_item (i : nat) (item : organic_item) : SearchSource.t :=
  SearchSource.mk (default [] (item_title item))
                  (default [] (item_link item))
                  (default [] (item_snippet item))
                  (i + 1).

(** What the single search request comes to: [raise_for_status] raised, or
    the decoded body's [organic] list (empty when the key is missing). *)
Definition search (exchange : result (list organic_item))
    : result (list SearchSource.t) :=
  let* organic := exchange in
  Ret (imap source_of_item organic).

End SerperSearch.

(** ** web_search_skill.py: the merge step of the orchestrator *)

Module WebSearchSkill.

Import Py.

(** The loop state: [all_sources] and [seen_urls]. *)
Definition merge_state : Type := list SearchSource.t * gset str.

(** The body of [for s in sources]. *)
Definition merge_source (st : merge_state) (s : SearchSource.t) : merge_state :=
  if decide (SearchSource.url s ∈ st.2) then st
  else (st.1 ++ [s], {[SearchSource.url s]} ∪ st.2).

Definition merge_sources (st : merge_state) (sources : list SearchSource.t)
    : merge_state :=
  foldl merge_source st sources.

(** The loop [for sq in search_queries]; [searches] holds, per rewritten
    query and in order, what its search comes to.  A raised error leaves
    the loop and the function. *)
Fixpoint search_loop (searches : list (result (list SearchSource.t)))
    (st : merge_state) : result merge_state :=
  match searches with
  | [] => Ret st
  | search :: rest =>
    let* sources := search in
    search_loop rest (merge_sources st sources)
  end.

(** [all_sources] after the loop. *)
Definition search_sources (searches : list (result (list SearchSource.t)))
    : result (list SearchSource.t) :=
  let* st := search_loop searches ([], ∅) in
  Ret st.1.

End WebSearchSkill.

(** ** Vocabulary of the statements *)

Module Spec.

(** The indices a reference list carries, in order. *)
Definition indices (refs : list Reference.t) : list nat :=
  Reference.index <$> refs.

(** The number of pages with [success = true]. *)
Definition successes (cs : list FetchedContent.t) : nat :=
  length (filter (fun c => FetchedContent.success c = true) cs).

End Spec.

(** ** Concrete inputs used by the examples below *)

Module Inputs.

Definition page_failed : FetchedContent.t :=
  FetchedContent.mk (u8 "https://a.com") [] [] 0 false (Some (u8 "HTTP 500")).

Definition page_ok : FetchedContent.t :=
  FetchedContent.mk (u8 "https://b.com") (u8 "B") (u8 "# B") 3 true None.

(** A bundle whose first page failed and whose second page succeeded. *)
Definition bundle_failed_then_ok : SearchResult.t :=
  SearchResult.mk (u8 "q") (Py.VList [Py.VStr (u8 "q")])
    [SearchSource.mk (u8 "A") (u8 "https://a.com") (u8 "a") 1;
     SearchSource.mk (u8 "B") (u8 "https://b.com") (u8 "b") 2]
    [page_failed; page_ok].

(** A bundle whose only page failed. *)
Definition bundle_all_failed : SearchResult.t :=
  SearchResult.mk (u8 "q") (Py.VList [Py.VStr (u8 "q")])
    [SearchSource.mk (u8 "A") (u8 "https://a.com") (u8 "a") 1]
    [page_failed].

(** A snippet of two lines, the second written like a page heading. *)
Definition snippet_with_heading : str :=
  u8 "x" ++ [LF] ++ u8 "### Source [1]: fake".

(** A bundle whose only page failed and whose only source carries
    [snippet_with_heading]. *)
Definition bundle_fake_heading : SearchResult.t :=
  SearchResult.mk (u8 "q") (Py.VList [Py.VStr (u8 "q")])
    [SearchSource.mk (u8 "A") (u8 "https://a.com") snippet_with_heading 1]
    [page_failed].

End Inputs.

(** ** Vocabulary for the content cleaner *)

Module CleanSpec.

(** A short markdown-style link line, as the cleaner tests it. *)
Definition short_link_line (line : str) : bool :=
  JinaFetcher.is_short_link (strip line).

Fixpoint leading_links (lines : list str) : nat :=
  match lines with
  | [] => O
  | l :: rest => if short_link_line l then S (leading_links rest) else O
  end.

(** The number of consecutive short link lines that end [before]: a line
    that follows [before] is number [S (run_length before)] of its run. *)
Definition run_length (before : list str) : nat := leading_links (rev before).

(** The rule as the specification words it: a short link line is dropped
    exactly when it is the 4th or later of its run. *)
Definition dropped_by_rule (before : list str) (line : str) : bool :=
  short_link_line line && (3 <=? run_length before)%nat.

(** What the loop does with the line that follows [before]. *)
Definition dropped (before : list str) (line : str) : bool :=
  (short_link_line line && (3 <=? run_length before)%nat)
  || JinaFetcher.is_image (strip line)
  || JinaFetcher.has_blob (strip line).

(** The counter [consecutive_short_links] after the loop has read [lines],
    started at [n]. *)
Definition counter_after (n : nat) (lines : list str) : nat :=
  foldl (fun c l => if short_link_line l then S c else O) n lines.

End CleanSpec.

(** ** Vocabulary for the batch fetch *)

Module GatherSpec.

Section Invariant.

Variable urls : list str.
Variable timeout : str.
Variable max_length : Z.
Variable network : nat -> JinaFetcher.http_result.

(** Every task still waits, is in flight, or has its own result in its
    own slot. *)
Definition gather_inv (st : JinaFetcher.gather_state) : Prop :=
  length (JinaFetcher.slots st) = length urls
  /\ forall i, (i < length urls)%nat ->
       i ∈ JinaFetcher.waiting st \/ i ∈ JinaFetcher.in_flight st
       \/ JinaFetcher.slots st !! i
          = Some (JinaFetcher.task_result urls timeout max_length network i).

(** The list of the fetch results of the urls, each at its url's index. *)
Definition results_in_order : list FetchedContent.t :=
  imap (fun i url => JinaFetcher.fetch_one url timeout max_length (network i))
       urls.

End Invariant.

End GatherSpec.

(** ** Vocabulary for the search request and the merge step *)

Module SearchSpec.

(** The translation of the recency enum that the specification words:
    day to d, week to w, month to m. *)
Definition provider_shorthand (period : str) : str :=
  if eqb period (u8 "day") then u8 "d"
  else if eqb period (u8 "week") then u8 "w"
  else if eqb period (u8 "month") then u8 "m"
  else period.

(** The records of [sources] that carry the url [u], in order. *)
Definition with_url (u : str) (sources : list SearchSource.t)
    : list SearchSource.t :=
  filter (fun s => SearchSource.url s = u) sources.

(** The urls of [sources], in order. *)
Definition urls_of (sources : list SearchSource.t) : list str :=
  SearchSource.url <$> sources.

(** What the merge loop maintains, relative to the records [read] so far. *)
Definition merge_inv (read : list SearchSource.t)
    (st : WebSearchSkill.merge_state) : Prop :=
  (forall u, u ∈ st.2 <-> u ∈ urls_of st.1)
  /\ (forall u, u ∈ urls_of st.1 <-> u ∈ urls_of read)
  /\ NoDup (urls_of st.1)
  /\ (forall u, with_url u st.1 = option_list (head (with_url u read)))
  /\ st.1 `sublist_of` read.

End SearchSpec.

(** ** Inputs of the rewriter scenarios *)

Module Scenario.

Definition beijing_weather : str := u8 "北京今天天气怎么样".

(** A json decoder that accepts nothing; it stands for [json.loads] where
    an example needs a value for that parameter and no text is decoded. *)
Definition no_json (text : str) : Py.result Py.value :=
  Py.Raise Py.JSONDecodeError.

End Scenario.

(** ** Vocabulary for the rewriter's error handling *)

Module RewriterSpec.

(** [ValueError] and its subclasses: the exceptions whose except clauses
    read [text]. *)
Definition value_error (e : Py.exn) : Prop :=
  e = Py.JSONDecodeError \/ e = Py.ValueError
  \/ e = Py.UnicodeEncodeError \/ e = Py.UnicodeDecodeError.

(** The exceptions of the other except clauses. *)
Definition plain (e : Py.exn) : Prop := ~ value_error e.

(** The exchanges that raise a [ValueError] before [text] is assigned:
    the request itself, or [response.json()]. *)
Definition raises_before_text (exchange : QueryRewriter.llm_exchange) : Prop :=
  exists e, value_error e
            /\ (exchange = QueryRewriter.RequestFailed e
                \/ exchange = QueryRewriter.Response (Py.Raise e)).

End RewriterSpec.

(** ** Inputs of the batch-fetch example *)

Module Batch.

Definition urls : list str := [u8 "https://a.com"; u8 "https://b.com"].

(** The first exchange times out, every other one answers. *)
Definition network (i : nat) : JinaFetcher.http_result :=
  match i with
  | O => JinaFetcher.TimeoutException
  | S _ => JinaFetcher.Response (u8 "# B")
  end.

End Batch.

(** ** web_search_skill.py: construction and the whole request *)

Module Pipeline.

Import Py.

(** [a or b] on optional strs: [a] when it is truthy, else [b] as it is. *)
Definition or_else (a b : option str) : option str :=
  match given a with
  | Some x => Some x
  | None => b
  end.

(** [l[:n]] on a list, for a Python int [n]. *)
Definition slice_list {A} (n : Z) (l : list A) : list A :=
  if (0 <=? n)%Z then take (Z.to_nat n) l
  else take (Z.to_nat (Z.of_nat (length l) + n)) l.

(** The process environment as [os.getenv] reads it once [load_dotenv] has
    run: a variable is unset ([None]) or holds a str. *)
Record environ := mkEnviron {
  SERPER_API_KEY : option str;
  JINA_API_KEY : option str;
  GLM_API_KEY : option str;
  GLM_MODEL : option str
}.

(** The fields of a constructed [WebSearchSkill]; [llm_model] is the model
    name its [QueryRewriter] holds. *)
Record skill := mkSkill {
  serper_key : str;
  jina_key : option str;
  llm_key : option str;
  llm_model : str
}.

(** [WebSearchSkill.__init__] *)
Definition init (serper_api_key jina_api_key llm_api_key : option str)
    (env : environ) : result skill :=
  match given (or_else serper_api_key (SERPER_API_KEY env)) with
  | None => Raise ValueError
  | Some key =>
    Ret (mkSkill key
           (or_else jina_api_key (JINA_API_KEY env))
           (or_else llm_api_key (GLM_API_KEY env))
           (default (u8 "glm-4-flash") (given (GLM_MODEL env))))
  end.

Section Search.

Variable lower : str -> str.
Variable json_loads : str -> result value.
Variable self : skill.
Variable query : str.
Variable user_location : option str.
Variable user_language : str.
Variable fetch_top_n : Z.
Variable max_content_length : Z.

(** What the outside world answers during one request: the rewrite
    exchange, the search of the [i]-th rewritten query, the fetch of the
    [i]-th url. *)
Variable exchange : QueryRewriter.llm_exchange.
Variable searches : nat -> result (list SearchSource.t).
Variable network : nat -> JinaFetcher.http_result.

(** [WebSearchSkill.search]: [search out] says that the call ends with
    [out].  The loop runs once per item of the plan's [search_queries],
    whatever that value is, and the bundle stores the value as it is.
    Timings and the verbose printing are left out. *)
Definition search (out : result SearchResult.t) : Prop :=
  match QueryRewriter.rewrite lower json_loads (llm_key self) query
          user_location user_language exchange with
  | Raise e => out = Raise e
  | Ret plan =>
    match iter_len (QueryRewriter.search_queries plan) with
    | Raise e => out = Raise e
    | Ret n =>
      match WebSearchSkill.search_sources (searches <$> seq 0 n) with
      | Raise e => out = Raise e
      | Ret all_sources =>
        exists contents,
          JinaFetcher.fetch_many
            (SearchSource.url <$> slice_list fetch_top_n all_sources)
            4 (u8 "15.0") max_content_length network contents
          /\ out = Ret (SearchResult.mk query
                          (QueryRewriter.search_queries plan) all_sources
                          contents)
      end
    end
  end.

End Search.

End Pipeline.

(** ** Vocabulary for the JSON extraction and the plan *)

Module PlanSpec.

(** Opening minus closing braces of [s]. *)
Fixpoint balance (s : str) : Z :=
  match s with
  | [] => 0%Z
  | c :: s' =>
    Z.add (if c =? 123 then 1%Z else if c =? 125 then (-1)%Z else 0%Z)
          (balance s')
  end.

(** A value that holds one to three items: a list, or a str (whose items
    are its characters). *)
Definition one_to_three (v : Py.value) : Prop :=
  (exists l, v = Py.VList l /\ (1 <= length l <= 3)%nat)
  \/ (exists s, v = Py.VStr s /\ (1 <= length s <= 3)%nat).

(** A decoder that reads every text as one fixed object; it stands for
    [json.loads] on the one text an example gives it. *)
Definition fixed_json (v : Py.value) (text : str) : Py.result Py.value :=
  Py.Ret v.

(** The object the brace scan selects: it starts with an opening brace,
    its braces balance, and no shorter non-empty prefix balances. *)
Definition first_object (object : str) : Prop :=
  head object = Some 123
  /\ balance object = 0%Z
  /\ forall k, (0 < k < length object)%nat -> (0 < balance (take k object))%Z.

(** A text whose first brace is never closed: every non-empty prefix has
    more opening than closing braces. *)
Definition unclosed (s : str) : Prop :=
  forall k, (0 < k <= length s)%nat -> (0 < balance (take k s))%Z.

End PlanSpec.

(** ** Vocabulary for cleaned lines and titles *)

Module LineSpec.

(** A line the cleaner has no filter for. *)
Definition ordinary (line : str) : Prop :=
  CleanSpec.short_link_line line = false
  /\ JinaFetcher.is_image (strip line) = false
  /\ JinaFetcher.has_blob (strip line) = false.

#[global] Instance ordinary_dec (line : str) : Decision (ordinary line).
Proof. unfold ordinary. apply _. Defined.

(** A line that is empty once stripped. *)
Definition blank (line : str) : Prop := strip line = [].

End LineSpec.

(** ** Inputs of the whole-request example *)

Module Request.

(** A skill without LLM key. *)
Definition self : Pipeline.skill :=
  Pipeline.mkSkill (u8 "key") None None (u8 "glm-4-flash").

Definition sources : list SearchSource.t :=
  [SearchSource.mk (u8 "A") (u8 "https://a.com") (u8 "a") 1;
   SearchSource.mk (u8 "B") (u8 "https://b.com") (u8 "b") 2].

(** Every search answers with the same two sources. *)
Definition searches (i : nat) : Py.result (list SearchSource.t) :=
  Py.Ret sources.

(** The bundle of the request for [Scenario.beijing_weather]: the fetch of
    the first url times out, the second succeeds. *)
Definition bundle : SearchResult.t :=
  SearchResult.mk Scenario.beijing_weather
    (Py.VList [Py.VStr Scenario.beijing_weather]) sources
    (GatherSpec.results_in_order Batch.urls (u8 "15.0") 6000 Batch.network).

End Request.

(** * Properties *)

(** ** The embedding on small inputs *)

Example u8_code_points : u8 "今天 ok" = [20170; 22825; 32; 111; 107].
Proof. reflexivity. Qed.

Example strip_both_ends : strip (u8 "  a b  ") = u8 "a b".
Proof. reflexivity. Qed.

Example split_keeps_empty_fields :
  split_on LF [97; LF; LF; 98; LF] = [[97]; []; [98]; []].
Proof. reflexivity. Qed.

Example join_lines : join [LF] [[97]; []; [98]] = [97; LF; LF; 98].
Proof. reflexivity. Qed.

Example slice_to_negative : slice_to (-1) (u8 "abc") = u8 "ab".
Proof. reflexivity. Qed.

Example of_nat_decimal : of_nat 120 = u8 "120".
Proof. reflexivity. Qed.

Example clean_lines_menu :
  JinaFetcher.clean_lines 0
    [u8 "[a](1)"; u8 "[b](2)"; u8 "[c](3)"; u8 "[d](4)"; u8 "[e](5)";
     u8 "text"; u8 "![img](x.png)"; u8 "[f](6)"]
  = [u8 "[a](1)"; u8 "[b](2)"; u8 "[c](3)"; u8 "text"; u8 "[f](6)"].
Proof. reflexivity. Qed.

Example extract_title_heading :
  JinaFetcher.extract_title [[]; u8 "## Title "; u8 "body"] = u8 "Title".
Proof. reflexivity. Qed.

Example remove_fence_json :
  QueryRewriter.clean_fences (u8 "```json {} ```") = u8 "{}".
Proof. reflexivity. Qed.

Example closing_brace_nested :
  QueryRewriter.closing_brace 0 2 (u8 "{a{b}c}d}") = Some 8%nat.
Proof. reflexivity. Qed.

Example merge_keeps_first :
  (WebSearchSkill.merge_sources ([], ∅)
     [SearchSource.mk (u8 "A") (u8 "u") (u8 "a") 1;
      SearchSource.mk (u8 "B") (u8 "v") (u8 "b") 2;
      SearchSource.mk (u8 "C") (u8 "u") (u8 "c") 1]).1
  = [SearchSource.mk (u8 "A") (u8 "u") (u8 "a") 1;
     SearchSource.mk (u8 "B") (u8 "v") (u8 "b") 2].
Proof. vm_compute. reflexivity. Qed.

(** ** Strings *)

Lemma startswith_app (p s : str) : startswith (p ++ s) p = true.
Proof.
  induction p as [|c p IH]; simpl.
  - by destruct s.
  - by rewrite N.eqb_refl, IH.
Qed.

Lemma endswith_app (s m : str) : endswith (s ++ m) m = true.
Proof. unfold endswith. rewrite rev_app_distr. apply startswith_app. Qed.

(** A character that does not occur in [p] ends every match of [p]. *)
Lemma startswith_sep (c : N) (p a b : str) :
  existsb (N.eqb c) p = false ->
  startswith (a ++ c :: b) p = startswith a p.
Proof.
  revert a. induction p as [|d p IH]; intros a; [by destruct a|].
  simpl existsb. intros [Hd Hp]%orb_false_elim.
  destruct a as [|x a]; simpl.
  - rewrite N.eqb_sym in Hd. by rewrite Hd.
  - by rewrite IH.
Qed.

(** So [p] occurs in [a ++ c :: b] only inside [a] or inside [b]. *)
Lemma contains_sep (c h : N) (p a b : str) :
  existsb (N.eqb c) (h :: p) = false ->
  contains (a ++ c :: b) (h :: p)
  = contains a (h :: p) || contains b (h :: p).
Proof.
  intros Hc. induction a as [|x a IH].
  - change (contains ([] ++ c :: b) (h :: p))
      with (startswith ([] ++ c :: b) (h :: p) || contains b (h :: p)).
    by rewrite startswith_sep.
  - change (contains ((x :: a) ++ c :: b) (h :: p))
      with (startswith ((x :: a) ++ c :: b) (h :: p)
            || contains (a ++ c :: b) (h :: p)).
    rewrite startswith_sep, IH by exact Hc.
    change (contains (x :: a) (h :: p))
      with (startswith (x :: a) (h :: p) || contains a (h :: p)).
    by rewrite orb_assoc.
Qed.

(** No match of [h :: p] starts inside a text without [h]. *)
Lemma contains_skip (h : N) (p lit s : str) :
  existsb (N.eqb h) lit = false ->
  contains (lit ++ s) (h :: p) = contains s (h :: p).
Proof.
  induction lit as [|c lit IH]; [reflexivity|]. simpl existsb.
  intros [Hc Hl]%orb_false_elim.
  change (contains ((c :: lit) ++ s) (h :: p))
    with (((h =? c) && startswith (lit ++ s) p)
          || contains (lit ++ s) (h :: p)).
  by rewrite Hc, IH.
Qed.

Lemma contains_join (h : N) (p : str) (parts : list str) :
  existsb (N.eqb LF) (h :: p) = false ->
  contains (join [LF] parts) (h :: p)
  = existsb (fun part => contains part (h :: p)) parts.
Proof.
  intros Hlf. induction parts as [|x rest IH]; [reflexivity|].
  destruct rest as [|y rest].
  - simpl. by rewrite orb_false_r.
  - change (join [LF] (x :: y :: rest))
      with (x ++ LF :: join [LF] (y :: rest)).
    by rewrite contains_sep, IH.
Qed.

Lemma of_uint_no_hash d : existsb (N.eqb 35) (of_uint d) = false.
Proof. induction d; simpl; auto. Qed.

Lemma len_app (s t : str) : len (s ++ t) = (len s + len t)%Z.
Proof. unfold len. rewrite length_app. lia. Qed.

Lemma slice_to_prefix (n : Z) (s : str) :
  (0 <= n)%Z -> (n <= len s)%Z ->
  slice_to n s = take (Z.to_nat n) s /\ len (slice_to n s) = n.
Proof.
  intros Hn Hs. unfold slice_to, len in *.
  destruct (Z.leb_spec 0 n); [|lia].
  split; [reflexivity|]. rewrite length_take. lia.
Qed.

(** ** models.py *)

Section EnumerateFrom.

Context {A B : Type}.
Implicit Types (body : nat -> A -> list B) (xs : list A).

Lemma enumerate_from_app body i xs ys :
  SearchResult.enumerate_from body i (xs ++ ys)
  = SearchResult.enumerate_from body i xs
    ++ SearchResult.enumerate_from body (i + length xs) ys.
Proof.
  revert i. induction xs as [|x xs IH]; intros i; simpl.
  - by rewrite Nat.add_0_r.
  - rewrite IH, <- app_assoc. do 3 f_equal. lia.
Qed.

Lemma enumerate_from_nil body i xs :
  (forall j x, xs !! j = Some x -> body (i + j)%nat x = []) ->
  SearchResult.enumerate_from body i xs = [].
Proof.
  revert i. induction xs as [|x xs IH]; intros i H; simpl; [reflexivity|].
  rewrite (IH (S i)).
  - specialize (H O x eq_refl). rewrite Nat.add_0_r in H. by rewrite H.
  - intros j y Hj. specialize (H (S j) y Hj).
    by replace (S i + j)%nat with (i + S j)%nat by lia.
Qed.

(** The parts of the element at index [j] stand in the output after the
    parts of the elements before it. *)
Lemma enumerate_from_lookup body i xs j x :
  xs !! j = Some x ->
  SearchResult.enumerate_from body i xs
  = SearchResult.enumerate_from body i (take j xs)
    ++ body (i + j)%nat x
    ++ SearchResult.enumerate_from body (i + S j) (drop (S j) xs).
Proof.
  intros Hj.
  rewrite <- (take_drop_middle xs j x Hj) at 1.
  rewrite enumerate_from_app. simpl.
  assert (length (take j xs) = j) as ->.
  { rewrite length_take. apply lookup_lt_Some in Hj. lia. }
  do 3 f_equal. lia.
Qed.

End EnumerateFrom.

(** *** get_reference_list *)

Section ReferenceList.

Import SearchResult.

Lemma reference_of_elem i c ref :
  ref ∈ reference_of i c <->
  FetchedContent.success c = true
  /\ ref = Reference.mk (i + 1) (FetchedContent.title c) (FetchedContent.url c).
Proof.
  unfold reference_of. destruct (FetchedContent.success c).
  - rewrite list_elem_of_singleton. split; [by intros ->|by intros [_ ->]].
  - rewrite elem_of_nil. split; [done|by intros [? _]].
Qed.

Lemma references_elem cs i ref :
  ref ∈ enumerate_from reference_of i cs <->
  exists j c, cs !! j = Some c /\ FetchedContent.success c = true
    /\ ref = Reference.mk (i + j + 1) (FetchedContent.title c)
                          (FetchedContent.url c).
Proof.
  revert i. induction cs as [|c cs IH]; intros i; simpl.
  - rewrite elem_of_nil. split; [done|]. by intros (j & c & Hj & _).
  - rewrite elem_of_app, reference_of_elem, IH. split.
    + intros [[Hs ->]|(j & c' & Hj & Hs & ->)].
      * exists O, c. by rewrite Nat.add_0_r.
      * exists (S j), c'. repeat split; [done..|]. f_equal. lia.
    + intros ([|j] & c' & Hj & Hs & ->); simpl in Hj.
      * left. injection Hj as ->. by rewrite Nat.add_0_r.
      * right. exists j, c'. repeat split; [done..|]. f_equal. lia.
Qed.

Lemma references_length cs i :
  length (enumerate_from reference_of i cs) = Spec.successes cs.
Proof.
  unfold Spec.successes. revert i.
  induction cs as [|c cs IH]; intros i; simpl; [reflexivity|].
  rewrite length_app, IH, filter_cons. unfold reference_of.
  destruct (FetchedContent.success c); reflexivity.
Qed.

Lemma references_above cs i :
  Forall (fun k => i < k)%nat (Spec.indices (enumerate_from reference_of i cs)).
Proof.
  unfold Spec.indices. revert i.
  induction cs as [|c cs IH]; intros i; simpl; [constructor|].
  rewrite fmap_app. apply Forall_app. split.
  - unfold reference_of. destruct (FetchedContent.success c); simpl;
      repeat constructor. simpl. lia.
  - eapply Forall_impl; [apply (IH (S i))|]. simpl. lia.
Qed.

Lemma references_increasing cs i :
  StronglySorted lt (Spec.indices (enumerate_from reference_of i cs)).
Proof.
  unfold Spec.indices. revert i.
  induction cs as [|c cs IH]; intros i; simpl; [constructor|].
  unfold reference_of at 1. destruct (FetchedContent.success c); simpl.
  - constructor; [apply IH|].
    eapply Forall_impl; [apply (references_above cs (S i))|]. simpl. lia.
  - apply IH.
Qed.

(** The indices are [i+1 ..] without a gap exactly when the successful
    pages come first. *)
Lemma references_contiguous cs i :
  Spec.indices (enumerate_from reference_of i cs)
    = seq (i + 1) (Spec.successes cs)
  <-> Forall (fun c => FetchedContent.success c = true)
             (take (Spec.successes cs) cs).
Proof.
  revert i. induction cs as [|c cs IH]; intros i.
  - simpl. split; [constructor|reflexivity].
  - pose proof (references_above cs (S i)) as Hab.
    pose proof (references_length cs (S i)) as Hlen.
    unfold Spec.indices, Spec.successes in *. simpl.
    rewrite filter_cons. unfold reference_of at 1.
    destruct (FetchedContent.success c) eqn:Hs; simpl.
    + rewrite Forall_cons.
      specialize (IH (S i)). replace (S i + 1)%nat with (S (i + 1)) in IH by lia.
      split.
      * intros [= Heq]. split; [done|]. apply IH. exact Heq.
      * intros [_ HF]. f_equal. apply IH, HF.
    + destruct (filter _ cs) as [|c' f] eqn:Hf; simpl in *.
      * apply nil_length_inv in Hlen. rewrite Hlen. simpl.
        split; [constructor|reflexivity].
      * rewrite Forall_cons, Hs.
        destruct (enumerate_from reference_of (S i) cs) as [|r rs];
          [discriminate|].
        simpl in *. apply Forall_cons in Hab as [Hab _].
        split; [intros [= Hr _]; lia | intros [? _]; discriminate].
Qed.

End ReferenceList.

(** C2, as stated, fails: with a failed page before a successful one the
    single reference carries index 2, not 1, so the indices are not
    [1..k] for [k = 1] successful page. *)
Lemma reference_indices_not_contiguous :
  Spec.indices (SearchResult.get_reference_list Inputs.bundle_failed_then_ok)
    = [2%nat]
  /\ Spec.successes (SearchResult.contents Inputs.bundle_failed_then_ok) = 1%nat
  /\ Spec.indices (SearchResult.get_reference_list Inputs.bundle_failed_then_ok)
     <> seq 1 (Spec.successes
                 (SearchResult.contents Inputs.bundle_failed_then_ok)).
Proof. vm_compute. repeat split; discriminate. Qed.

(** C2 (amended): [get_reference_list] has one entry per successful page;
    an entry's index is the 1-based position of its page among all pages
    of [contents], so the indices increase strictly, and they are the
    contiguous sequence [1..k] exactly when the [k] successful pages are
    the first [k] pages. *)
Theorem get_reference_list_positions (r : SearchResult.t) :
  let refs := SearchResult.get_reference_list r in
  let k := Spec.successes (SearchResult.contents r) in
  length refs = k
  /\ StronglySorted lt (Spec.indices refs)
  /\ (forall ref, ref ∈ refs <->
        exists j c, SearchResult.contents r !! j = Some c
          /\ FetchedContent.success c = true
          /\ ref = Reference.mk (j + 1) (FetchedContent.title c)
                                (FetchedContent.url c))
  /\ (Spec.indices refs = seq 1 k <->
        Forall (fun c => FetchedContent.success c = true)
               (take k (SearchResult.contents r))).
Proof.
  unfold SearchResult.get_reference_list. cbv zeta. repeat split.
  - apply references_length.
  - apply references_increasing.
  - intros H. by apply references_elem in H.
  - intros H. by apply references_elem.
  - apply (references_contiguous (SearchResult.contents r) 0).
  - apply (references_contiguous (SearchResult.contents r) 0).
Qed.

(** *** to_context_string *)

Section ContextString.

Import SearchResult.

Lemma enumerate_from_Forall {A B} (P : B -> Prop) (body : nat -> A -> list B)
    i xs :
  (forall j x, Forall P (body j x)) -> Forall P (enumerate_from body i xs).
Proof.
  intros Hb. revert i. induction xs as [|x xs IH]; intros i; simpl.
  - constructor.
  - apply Forall_app. split; [apply Hb | apply IH].
Qed.

Lemma content_parts_failed m cs i :
  Forall (fun c => FetchedContent.success c = false) cs ->
  enumerate_from (content_parts m) i cs = [].
Proof.
  intros Hall. apply enumerate_from_nil. intros j c Hj.
  rewrite Forall_lookup in Hall. unfold content_parts.
  by rewrite (Hall j c Hj).
Qed.

Lemma existsb_failed cs :
  Forall (fun c => FetchedContent.success c = false) cs ->
  existsb FetchedContent.success cs = false.
Proof.
  induction 1 as [|c cs Hc _ IH]; simpl; [reflexivity|]. by rewrite Hc, IH.
Qed.

Lemma source_parts_length i xs :
  length (enumerate_from source_parts i xs) = (3 * length xs)%nat.
Proof.
  revert i. induction xs as [|x xs IH]; intros i; simpl; [reflexivity|].
  rewrite IH. lia.
Qed.

Lemma source_parts_no_heading i s :
  Forall (fun part => startswith part source_heading_prefix = false)
         (source_parts i s).
Proof. unfold source_parts. repeat constructor. Qed.

Lemma query_heading_no_heading q :
  startswith (query_heading q) source_heading_prefix = false.
Proof. reflexivity. Qed.

Lemma existsb_enumerate_from {A B} (f : B -> bool) (g : A -> bool)
    (body : nat -> A -> list B) i xs :
  (forall j x, existsb f (body j x) = g x) ->
  existsb f (enumerate_from body i xs) = existsb g xs.
Proof.
  intros Hb. revert i. induction xs as [|x xs IH]; intros i; simpl;
    [reflexivity|].
  by rewrite existsb_app, Hb, IH.
Qed.

Lemma source_heading_prefix_head :
  source_heading_prefix = 35 :: u8 "## Source [".
Proof. reflexivity. Qed.

(** The heading prefix occurs in the query heading only inside the
    query. *)
Lemma query_heading_contains q :
  contains (query_heading q) source_heading_prefix
  = contains q source_heading_prefix.
Proof.
  unfold query_heading. rewrite source_heading_prefix_head.
  set (tail := q ++ u8 ")" ++ [LF]).
  transitivity (contains tail (35 :: u8 "## Source [")); [reflexivity|].
  unfold tail.
  change (q ++ u8 ")" ++ [LF]) with (q ++ 41 :: [LF]).
  rewrite contains_sep by reflexivity. apply orb_false_r.
Qed.

(** It occurs in the lines of a source only inside the title, the url or
    the snippet. *)
Lemma source_parts_contains i s :
  existsb (fun part => contains part source_heading_prefix) (source_parts i s)
  = contains (SearchSource.title s) source_heading_prefix
    || contains (SearchSource.url s) source_heading_prefix
    || contains (SearchSource.snippet s) source_heading_prefix.
Proof.
  rewrite source_heading_prefix_head. unfold source_parts. cbn [existsb].
  rewrite (contains_skip 35 _ (u8 "[")) by reflexivity.
  rewrite (contains_skip 35 _ (of_nat (i + 1))) by apply of_uint_no_hash.
  rewrite (contains_skip 35 _ (u8 "] ")) by reflexivity.
  rewrite (contains_skip 35 _ (u8 "    URL: ")) by reflexivity.
  rewrite (contains_skip 35 _ (u8 "    ")) by reflexivity.
  rewrite (contains_sep LF 35 _ (SearchSource.snippet s) []) by reflexivity.
  change (contains [] (35 :: u8 "## Source [")) with false.
  by rewrite !orb_false_r, orb_assoc.
Qed.

End ContextString.

(** C8, as stated, fails: the texts of the sources are rendered as they
    are, so the string rendered for a bundle with no successful page
    contains ["### Source ["], even at the start of a line, when a
    snippet does. *)
Lemma fallback_renders_heading_of_snippet :
  Forall (fun c => FetchedContent.success c = false)
         (SearchResult.contents Inputs.bundle_fake_heading)
  /\ contains (SearchResult.to_context_string Inputs.bundle_fake_heading 1500)
              SearchResult.source_heading_prefix = true
  /\ existsb (fun line => startswith line SearchResult.source_heading_prefix)
             (split_on LF
                (SearchResult.to_context_string Inputs.bundle_fake_heading
                   1500))
     = true.
Proof. split; [repeat constructor | split; vm_compute; reflexivity]. Qed.

(** C8 (amended): when no page succeeded, the rendered context is the
    query heading followed by the snippet-fallback section (its heading,
    then for every source, numbered from 1, the title, url and snippet
    lines); none of the parts joined into the string is a
    ["### Source ["] heading; and the string contains ["### Source ["]
    exactly when the query or the title, url or snippet of a source
    contains it. *)
Theorem to_context_string_fallback (r : SearchResult.t) (m : Z) :
  Forall (fun c => FetchedContent.success c = false) (SearchResult.contents r) ->
  SearchResult.to_context_string r m
    = join [LF] (SearchResult.query_heading (SearchResult.query r)
                 :: SearchResult.summary_heading
                 :: SearchResult.enumerate_from SearchResult.source_parts 0
                      (SearchResult.sources r))
  /\ (forall i s, SearchResult.sources r !! i = Some s ->
        exists before after,
          SearchResult.enumerate_from SearchResult.source_parts 0
            (SearchResult.sources r)
          = before
            ++ [ u8 "[" ++ of_nat (i + 1) ++ u8 "] " ++ SearchSource.title s;
                 u8 "    URL: " ++ SearchSource.url s;
                 u8 "    " ++ SearchSource.snippet s ++ [LF] ]
            ++ after
          /\ length before = (3 * i)%nat)
  /\ Forall (fun part =>
               startswith part SearchResult.source_heading_prefix = false)
            (SearchResult.to_context_parts r m)
  /\ contains (SearchResult.to_context_string r m)
              SearchResult.source_heading_prefix
     = contains (SearchResult.query r) SearchResult.source_heading_prefix
       || existsb (fun s =>
                     contains (SearchSource.title s)
                       SearchResult.source_heading_prefix
                     || contains (SearchSource.url s)
                          SearchResult.source_heading_prefix
                     || contains (SearchSource.snippet s)
                          SearchResult.source_heading_prefix)
                  (SearchResult.sources r).
Proof.
  intros Hall.
  assert (SearchResult.to_context_parts r m
          = SearchResult.query_heading (SearchResult.query r)
            :: SearchResult.summary_heading
            :: SearchResult.enumerate_from SearchResult.source_parts 0
                 (SearchResult.sources r)) as Hparts.
  { unfold SearchResult.to_context_parts.
    by rewrite content_parts_failed, existsb_failed. }
  split; [|split; [|split]].
  - unfold SearchResult.to_context_string. by rewrite Hparts.
  - intros i s Hi.
    exists (SearchResult.enumerate_from SearchResult.source_parts 0
              (take i (SearchResult.sources r))),
           (SearchResult.enumerate_from SearchResult.source_parts (0 + S i)
              (drop (S i) (SearchResult.sources r))).
    split.
    + apply (enumerate_from_lookup SearchResult.source_parts 0 _ i s Hi).
    + rewrite source_parts_length, length_take.
      apply lookup_lt_Some in Hi. lia.
  - rewrite Hparts. repeat constructor.
    apply enumerate_from_Forall. intros j x. apply source_parts_no_heading.
  - unfold SearchResult.to_context_string.
    rewrite Hparts, source_heading_prefix_head.
    rewrite contains_join by reflexivity. cbn [existsb].
    rewrite <- source_heading_prefix_head.
    rewrite query_heading_contains.
    rewrite (existsb_enumerate_from _ _ SearchResult.source_parts 0
               (SearchResult.sources r) source_parts_contains).
    reflexivity.
Qed.

(** The hypothesis of [to_context_string_fallback] holds for a bundle whose
    only page failed. *)
Lemma to_context_string_fallback_witness :
  Forall (fun c => FetchedContent.success c = false)
         (SearchResult.contents Inputs.bundle_all_failed)
  /\ SearchResult.to_context_string Inputs.bundle_all_failed 1500
     = join [LF]
         (SearchResult.query_heading
            (SearchResult.query Inputs.bundle_all_failed)
          :: SearchResult.summary_heading
          :: SearchResult.enumerate_from SearchResult.source_parts 0
               (SearchResult.sources Inputs.bundle_all_failed)).
Proof.
  assert (Forall (fun c => FetchedContent.success c = false)
                 (SearchResult.contents Inputs.bundle_all_failed)) as H.
  { repeat constructor. }
  split; [exact H|].
  exact (proj1 (to_context_string_fallback Inputs.bundle_all_failed 1500 H)).
Defined.

(** C10: the body rendered for a successful page is cut at
    [4 * max_tokens_per_source] characters: a content of at most that many
    characters is rendered whole, without marker; a longer one is rendered
    as its slice up to [4 * max_tokens_per_source] followed by the
    truncation marker, which for a non-negative parameter is exactly its
    first [4 * max_tokens_per_source] characters. *)
Theorem to_context_string_cap (r : SearchResult.t) (m : Z) (i : nat)
    (c : FetchedContent.t) :
  SearchResult.contents r !! i = Some c ->
  FetchedContent.success c = true ->
  exists before after body,
    SearchResult.to_context_string r m
    = join [LF]
        (before
         ++ [ SearchResult.source_heading_prefix ++ of_nat (i + 1)
                ++ u8 "]: " ++ FetchedContent.title c;
              u8 "URL: " ++ FetchedContent.url c;
              body ++ [LF] ]
         ++ after)
    /\ ((len (FetchedContent.content c) <= 4 * m)%Z ->
        body = FetchedContent.content c)
    /\ ((4 * m < len (FetchedContent.content c))%Z ->
        body = slice_to (4 * m) (FetchedContent.content c)
               ++ SearchResult.truncation_marker
        /\ ((0 <= m)%Z ->
            slice_to (4 * m) (FetchedContent.content c)
              = take (Z.to_nat (4 * m)) (FetchedContent.content c)
            /\ len body = (4 * m + len SearchResult.truncation_marker)%Z)).
Proof.
  intros Hi Hs.
  exists ([SearchResult.query_heading (SearchResult.query r)]
          ++ SearchResult.enumerate_from (SearchResult.content_parts m) 0
               (take i (SearchResult.contents r))).
  eexists. exists (SearchResult.cap_text m (FetchedContent.content c)).
  split; [|split].
  - unfold SearchResult.to_context_string, SearchResult.to_context_parts.
    rewrite (enumerate_from_lookup (SearchResult.content_parts m) 0 _ i c Hi).
    unfold SearchResult.content_parts at 2. rewrite Hs. simpl negb. cbv iota.
    rewrite <- !app_assoc. reflexivity.
  - intros Hle. unfold SearchResult.cap_text.
    destruct (Z.ltb_spec (m * 4) (len (FetchedContent.content c))); [lia|done].
  - intros Hlt. unfold SearchResult.cap_text.
    replace (m * 4)%Z with (4 * m)%Z by lia.
    destruct (Z.ltb_spec (4 * m) (len (FetchedContent.content c))); [|lia].
    split; [reflexivity|]. intros Hm.
    destruct (slice_to_prefix (4 * m) (FetchedContent.content c)) as [Ht Hl];
      [lia..|].
    split; [exact Ht|]. by rewrite len_app, Hl.
Qed.

(** The second page of [Inputs.bundle_failed_then_ok] meets the hypotheses
    of [to_context_string_cap]. *)
Lemma to_context_string_cap_witness :
  exists before after body,
    SearchResult.to_context_string Inputs.bundle_failed_then_ok 1500
    = join [LF]
        (before
         ++ [ SearchResult.source_heading_prefix ++ of_nat (1 + 1)
                ++ u8 "]: " ++ FetchedContent.title Inputs.page_ok;
              u8 "URL: " ++ FetchedContent.url Inputs.page_ok;
              body ++ [LF] ]
         ++ after)
    /\ body = FetchedContent.content Inputs.page_ok.
Proof.
  destruct (to_context_string_cap Inputs.bundle_failed_then_ok 1500 1
              Inputs.page_ok eq_refl eq_refl)
    as (before & after & body & Heq & Hshort & _).
  exists before, after, body. split; [exact Heq|].
  apply Hshort. vm_compute. discriminate.
Defined.

(** ** fetch_jina.py *)

Section CleanContent.

Import JinaFetcher CleanSpec.

Lemma clean_lines_app n xs ys :
  clean_lines n (xs ++ ys)
  = clean_lines n xs ++ clean_lines (counter_after n xs) ys.
Proof.
  revert n. induction xs as [|x xs IH]; intros n; simpl; [reflexivity|].
  fold (short_link_line x).
  set (n' := if short_link_line x then S n else O).
  rewrite !IH.
  destruct (short_link_line x && (3 <? n')%nat); [reflexivity|].
  destruct (is_image (strip x)); [reflexivity|].
  destruct (has_blob (strip x)); reflexivity.
Qed.

Lemma clean_lines_cons n line rest :
  clean_lines n (line :: rest)
  = let n' := if short_link_line line then S n else O in
    if short_link_line line && (3 <? n')%nat then clean_lines n' rest
    else if is_image (strip line) then clean_lines n' rest
    else if has_blob (strip line) then clean_lines n' rest
    else line :: clean_lines n' rest.
Proof. reflexivity. Qed.

Lemma run_length_snoc xs x :
  run_length (xs ++ [x])
  = if short_link_line x then S (run_length xs) else O.
Proof. unfold run_length. by rewrite rev_app_distr. Qed.

Lemma counter_after_run xs : counter_after 0 xs = run_length xs.
Proof.
  induction xs as [|x xs IH] using rev_ind; [reflexivity|].
  unfold counter_after in *. by rewrite foldl_app, run_length_snoc, IH.
Qed.

Lemma short_link_not_image s : is_short_link s = true -> is_image s = false.
Proof.
  unfold is_short_link, is_image.
  change (u8 "[") with [91]. change (u8 "![") with [33; 91].
  destruct s as [|c s]; [done|].
  change (startswith (c :: s) [91]) with ((91 =? c) && startswith s []).
  change (startswith (c :: s) [33; 91]) with ((33 =? c) && startswith s [91]).
  destruct (N.eqb_spec 91 c) as [<-|]; [reflexivity|discriminate].
Qed.

End CleanContent.

(** C9, as stated, fails: the line ["[a](blob:x)"] is a short link line
    and the first of its run, so the rule as worded keeps it, yet the
    cleaner drops it. *)
Lemma blob_link_dropped_at_run_start :
  CleanSpec.short_link_line (u8 "[a](blob:x)") = true
  /\ CleanSpec.run_length [] = O
  /\ CleanSpec.dropped_by_rule [] (u8 "[a](blob:x)") = false
  /\ JinaFetcher.clean_lines 0 [u8 "[a](blob:x)"] = []
  /\ JinaFetcher.clean_content (u8 "[a](blob:x)") = [].
Proof. vm_compute. repeat split. Qed.

(** C9 (amended): the line that follows the lines [before] is dropped
    exactly when it is a short link line that is the 4th or later of its
    run of consecutive short link lines, or a pure image line, or a line
    that contains ["blob:"]; the lines after it are cleaned with the run
    counted through it, where every short link line, kept or dropped,
    extends the run and any other line resets it.  For a short link line
    the test comes to: 4th or later of its run, or contains ["blob:"]. *)
Theorem clean_lines_position (before : list str) (line : str)
    (after : list str) :
  JinaFetcher.clean_lines 0 (before ++ line :: after)
  = JinaFetcher.clean_lines 0 before
    ++ (if CleanSpec.dropped before line then [] else [line])
    ++ JinaFetcher.clean_lines (CleanSpec.run_length (before ++ [line])) after
  /\ CleanSpec.run_length (before ++ [line])
     = (if CleanSpec.short_link_line line
        then S (CleanSpec.run_length before) else O)
  /\ (if CleanSpec.short_link_line line
      then CleanSpec.dropped before line
           = (3 <=? CleanSpec.run_length before)%nat
             || JinaFetcher.has_blob (strip line)
      else CleanSpec.dropped before line
           = JinaFetcher.is_image (strip line)
             || JinaFetcher.has_blob (strip line)).
Proof.
  split; [|split].
  - rewrite clean_lines_app, counter_after_run, run_length_snoc,
      clean_lines_cons.
    unfold CleanSpec.dropped.
    destruct (CleanSpec.short_link_line line); cbv zeta.
    + change (3 <? S (CleanSpec.run_length before))%nat
        with (3 <=? CleanSpec.run_length before)%nat.
      destruct (3 <=? CleanSpec.run_length before)%nat; [reflexivity|].
      destruct (JinaFetcher.is_image (strip line)); [reflexivity|].
      destruct (JinaFetcher.has_blob (strip line)); reflexivity.
    + destruct (JinaFetcher.is_image (strip line)); [reflexivity|].
      destruct (JinaFetcher.has_blob (strip line)); reflexivity.
  - apply run_length_snoc.
  - unfold CleanSpec.dropped.
    destruct (CleanSpec.short_link_line line) eqn:Hs; simpl; [|reflexivity].
    unfold CleanSpec.short_link_line in Hs.
    by rewrite (short_link_not_image _ Hs), orb_false_r.
Qed.

(** *** fetch_one *)

Lemma fetch_truncation_marker_len : len JinaFetcher.truncation_marker = 12%Z.
Proof. reflexivity. Qed.

(** C7, as stated, fails: with [max_length = -2] the cleaned body
    ["hello"] is longer than the bound, the slice [content[:-2]] keeps
    its first three characters, and the returned body holds 15
    characters, more than [-2] plus the 12 of the marker. *)
Lemma fetch_one_negative_max_length :
  (-2 < len (JinaFetcher.clean_content (u8 "hello")))%Z
  /\ FetchedContent.success
       (JinaFetcher.fetch_one (u8 "https://a.com") (u8 "15.0") (-2)
          (JinaFetcher.Response (u8 "hello"))) = true
  /\ FetchedContent.content
       (JinaFetcher.fetch_one (u8 "https://a.com") (u8 "15.0") (-2)
          (JinaFetcher.Response (u8 "hello")))
     = u8 "hel" ++ JinaFetcher.truncation_marker
  /\ ~ (len (FetchedContent.content
               (JinaFetcher.fetch_one (u8 "https://a.com") (u8 "15.0") (-2)
                  (JinaFetcher.Response (u8 "hello"))))
        <= -2 + len JinaFetcher.truncation_marker)%Z.
Proof.
  split; [reflexivity|]. split; [reflexivity|]. split; [reflexivity|].
  vm_compute. intros H. by apply H.
Qed.

(** C7 (amended): a successful fetch whose cleaned body is longer than
    [max_length] returns the slice [content[:max_length]] of the cleaned
    body followed by the truncation marker, so the marker stands at the
    end of the returned body.  The returned body is no longer than
    [max_length] plus the marker exactly when [max_length] is not
    negative, and it then holds the first [max_length] characters of the
    cleaned body and has exactly that length. *)
Theorem fetch_one_truncation (url timeout : str) (max_length : Z)
    (text : str) :
  (max_length < len (JinaFetcher.clean_content text))%Z ->
  let page :=
    JinaFetcher.fetch_one url timeout max_length (JinaFetcher.Response text) in
  FetchedContent.success page = true
  /\ FetchedContent.content page
     = slice_to max_length (JinaFetcher.clean_content text)
       ++ JinaFetcher.truncation_marker
  /\ endswith (FetchedContent.content page) JinaFetcher.truncation_marker = true
  /\ FetchedContent.word_count page = len (FetchedContent.content page)
  /\ ((len (FetchedContent.content page)
       <= max_length + len JinaFetcher.truncation_marker)%Z
      <-> (0 <= max_length)%Z)
  /\ ((0 <= max_length)%Z ->
      FetchedContent.content page
      = take (Z.to_nat max_length) (JinaFetcher.clean_content text)
        ++ JinaFetcher.truncation_marker
      /\ len (FetchedContent.content page)
         = (max_length + len JinaFetcher.truncation_marker)%Z).
Proof.
  intros Hlong. cbv zeta. unfold JinaFetcher.fetch_one.
  cbn [FetchedContent.success FetchedContent.content FetchedContent.word_count].
  unfold JinaFetcher.bounded_content. cbv zeta.
  destruct (Z.ltb_spec max_length (len (JinaFetcher.clean_content text)));
    [|lia].
  assert ((0 <= max_length)%Z ->
          slice_to max_length (JinaFetcher.clean_content text)
          = take (Z.to_nat max_length) (JinaFetcher.clean_content text)
          /\ len (slice_to max_length (JinaFetcher.clean_content text))
             = max_length) as Hpre.
  { intros Hn. apply slice_to_prefix; lia. }
  split; [reflexivity|]. split; [reflexivity|].
  split; [apply endswith_app|]. split; [reflexivity|].
  rewrite len_app. split.
  - split.
    + intros Hle. unfold len in Hle. lia.
    + intros Hn. destruct (Hpre Hn) as [_ Hl]. rewrite Hl. lia.
  - intros Hn. destruct (Hpre Hn) as [Ht Hl]. by rewrite Hl, Ht.
Qed.

(** A 5-character page fetched with [max_length = 3]. *)
Lemma fetch_one_truncation_witness :
  FetchedContent.content
    (JinaFetcher.fetch_one (u8 "https://a.com") (u8 "15.0") 3
       (JinaFetcher.Response (u8 "hello")))
  = u8 "hel" ++ JinaFetcher.truncation_marker.
Proof.
  refine (proj1 (proj2 (fetch_one_truncation (u8 "https://a.com") (u8 "15.0")
                          3 (u8 "hello") _))).
  vm_compute. reflexivity.
Defined.

(** *** fetch_many *)

Section Gather.

Import JinaFetcher GatherSpec.

Variable urls : list str.
Variable max_concurrent : Z.
Variable timeout : str.
Variable max_length : Z.
Variable network : nat -> http_result.

Abbreviation step := (gather_step urls max_concurrent timeout max_length network).
Abbreviation inv := (gather_inv urls timeout max_length network).
Abbreviation result_of := (task_result urls timeout max_length network).

Lemma gather_inv_init : inv (gather_init urls).
Proof.
  split; simpl.
  - apply length_replicate.
  - intros i Hi. left. apply elem_of_seq. lia.
Qed.

Lemma gather_inv_step st st' : step st st' -> inv st -> inv st'.
Proof.
  intros Hstep [Hlen Hall]. destruct Hstep as [i w r s Hfree | i w r1 r2 s];
    simpl in *; split; simpl.
  - exact Hlen.
  - intros j Hj. destruct (Hall j Hj) as [Hw | [Hr | Hs]].
    + apply elem_of_cons in Hw as [-> | Hw].
      * right. left. apply elem_of_app. right. by apply list_elem_of_singleton.
      * by left.
    + right. left. apply elem_of_app. by left.
    + by right; right.
  - by rewrite length_insert.
  - intros j Hj. destruct (decide (j = i)) as [-> | Hne].
    + right. right. apply list_lookup_insert_eq. lia.
    + destruct (Hall j Hj) as [Hw | [Hr | Hs]].
      * by left.
      * right. left. rewrite elem_of_app in Hr. rewrite elem_of_app.
        destruct Hr as [Hr | Hr]; [by left|].
        apply elem_of_cons in Hr as [-> | Hr]; [done | by right].
      * right. right. by rewrite list_lookup_insert_ne.
Qed.

Lemma gather_inv_run st st' : rtc step st st' -> inv st -> inv st'.
Proof. induction 1 as [|x y z Hxy _ IH]; eauto using gather_inv_step. Qed.

(** Once every task is done the slots hold the results in input order. *)
Lemma gather_done_result st :
  inv st -> gather_done st ->
  gather_result st = Some (results_in_order urls timeout max_length network).
Proof.
  intros [Hlen Hall] [Hw Hr]. unfold gather_result.
  apply mapM_Some. apply Forall2_same_length_lookup. split.
  - unfold results_in_order. by rewrite length_imap.
  - intros i x y Hx Hy.
    assert (i < length urls)%nat as Hi.
    { rewrite <- Hlen. by apply lookup_lt_Some in Hx. }
    destruct (Hall i Hi) as [Hin | [Hin | Hs]].
    + rewrite Hw in Hin. by apply elem_of_nil in Hin.
    + rewrite Hr in Hin. by apply elem_of_nil in Hin.
    + rewrite Hs in Hx. injection Hx as <-. simpl.
      unfold results_in_order in Hy. rewrite list_lookup_imap in Hy.
      unfold task_result. exact Hy.
Qed.

(** Every task in flight can complete. *)
Lemma gather_drain r : forall w s,
  exists s', rtc step (GatherState w r s) (GatherState w [] s').
Proof.
  induction r as [|i r IH]; intros w s.
  - exists s. apply rtc_refl.
  - destruct (IH w (<[i := result_of i]> s)) as [s' Hrun].
    exists s'. eapply rtc_l; [|exact Hrun].
    apply (step_complete urls max_concurrent timeout max_length network
             i w [] r s).
Qed.

(** With a free slot every waiting task gets its turn. *)
Lemma gather_serve w : (0 < max_concurrent)%Z -> forall s,
  exists s', rtc step (GatherState w [] s) (GatherState [] [] s').
Proof.
  intros Hpos. induction w as [|i w IH]; intros s.
  - exists s. apply rtc_refl.
  - destruct (IH (<[i := result_of i]> s)) as [s' Hrun].
    exists s'.
    eapply rtc_l; [apply step_acquire; simpl; lia|].
    eapply rtc_l; [|exact Hrun].
    apply (step_complete urls max_concurrent timeout max_length network
             i w [] [] s).
Qed.

End Gather.

(** C6: [fetch_many] returns, and whatever the order in which the fetches
    complete, the list it returns has the length of [urls] and holds at
    each index the fetch result of the url at that index (the semaphore is
    created with at least one slot). *)
Theorem fetch_many_positional (urls : list str) (max_concurrent : Z)
    (timeout : str) (max_length : Z)
    (network : nat -> JinaFetcher.http_result) :
  (0 < max_concurrent)%Z ->
  (exists res,
     JinaFetcher.fetch_many urls max_concurrent timeout max_length
       network res)
  /\ forall res,
       JinaFetcher.fetch_many urls max_concurrent timeout max_length
         network res ->
       length res = length urls
       /\ forall i url, urls !! i = Some url ->
            res !! i
            = Some (JinaFetcher.fetch_one url timeout max_length (network i)).
Proof.
  intros Hpos. split.
  - destruct (gather_serve urls max_concurrent timeout max_length network
                (seq 0 (length urls)) Hpos (replicate (length urls) None))
      as [s' Hrun].
    exists (GatherSpec.results_in_order urls timeout max_length network).
    exists (JinaFetcher.GatherState [] [] s'). split; [exact Hrun|].
    split; [by split|].
    apply gather_done_result; [|by split].
    eapply gather_inv_run; [exact Hrun | apply gather_inv_init].
  - intros res (st & Hrun & Hdone & Hres).
    rewrite (gather_done_result urls timeout max_length network st) in Hres.
    + injection Hres as <-. unfold GatherSpec.results_in_order. split.
      * by rewrite length_imap.
      * intros i url Hi. by rewrite list_lookup_imap, Hi.
    + eapply gather_inv_run; [exact Hrun | apply gather_inv_init].
    + exact Hdone.
Qed.

(** Two urls fetched with four slots: the batch returns. *)
Lemma fetch_many_positional_witness :
  exists res,
    JinaFetcher.fetch_many Batch.urls 4 (u8 "15.0") 6000
      Batch.network res.
Proof.
  refine (proj1 (fetch_many_positional Batch.urls 4 (u8 "15.0") 6000
                   Batch.network _)).
  lia.
Defined.

(** ** web_search_skill.py: the merge step *)

Section Merge.

Import WebSearchSkill SearchSpec.

Lemma merge_sources_concat st (results : list (list SearchSource.t)) :
  foldl merge_sources st results = merge_sources st (concat results).
Proof.
  revert st. induction results as [|r rs IH]; intros st; simpl; [reflexivity|].
  unfold merge_sources in *. by rewrite IH, foldl_app.
Qed.

Lemma search_loop_ok (results : list (list SearchSource.t)) st :
  search_loop (Py.Ret <$> results) st
  = Py.Ret (merge_sources st (concat results)).
Proof.
  revert st. induction results as [|r rs IH]; intros st; simpl; [reflexivity|].
  rewrite IH. unfold merge_sources. by rewrite foldl_app.
Qed.

Lemma with_url_snoc u l x :
  with_url u (l ++ [x])
  = with_url u l ++ (if decide (SearchSource.url x = u) then [x] else []).
Proof.
  unfold with_url. by rewrite filter_app.
Qed.

Lemma with_url_nil u l : u ∉ urls_of l -> with_url u l = [].
Proof.
  intros Hu. destruct (with_url u l) as [|s rest] eqn:Hf; [reflexivity|].
  assert (s ∈ with_url u l) as Hin by (rewrite Hf; left).
  unfold with_url in Hin. apply list_elem_of_filter in Hin as [<- Hs].
  exfalso. apply Hu. unfold urls_of. by apply list_elem_of_fmap_2.
Qed.

Lemma with_url_head u l :
  u ∈ urls_of l -> exists s rest, with_url u l = s :: rest.
Proof.
  intros Hu. unfold urls_of in Hu.
  apply list_elem_of_fmap in Hu as (s & -> & Hs).
  destruct (with_url (SearchSource.url s) l) as [|s' rest] eqn:Hf; [|eauto].
  assert (s ∈ with_url (SearchSource.url s) l) as Hin.
  { unfold with_url. by apply list_elem_of_filter. }
  rewrite Hf in Hin. by apply elem_of_nil in Hin.
Qed.

Lemma merge_inv_init : merge_inv [] ([], ∅).
Proof.
  repeat split; simpl; try done.
  - by intros ?%elem_of_nil.
  - constructor.
Qed.

Lemma merge_inv_snoc read st x :
  merge_inv read st -> merge_inv (read ++ [x]) (merge_source st x).
Proof.
  destruct st as [all seen]. intros (Hseen & Hurls & Hnd & Hfirst & Hsub).
  simpl in *. unfold merge_source. simpl.
  assert (forall u, u ∈ urls_of (read ++ [x])
                    <-> u ∈ urls_of read \/ u = SearchSource.url x) as Hsnoc.
  { intros u. unfold urls_of. rewrite fmap_app, elem_of_app. simpl.
    by rewrite list_elem_of_singleton. }
  case_decide as Hin; simpl.
  - apply Hseen, Hurls in Hin. repeat split; cbn [fst snd].
    + apply Hseen.
    + apply Hseen.
    + intros Hu. apply Hsnoc. left. by apply Hurls.
    + intros Hu. apply Hsnoc in Hu as [Hu | ->]; by apply Hurls.
    + exact Hnd.
    + intros u. rewrite Hfirst, with_url_snoc. case_decide as Hu; [|by rewrite app_nil_r].
      subst u. destruct (with_url_head _ _ Hin) as (s & rest & ->). reflexivity.
    + by apply sublist_inserts_r.
  - assert (SearchSource.url x ∉ urls_of read) as Hnew.
    { intros Hx. by apply Hin, Hseen, Hurls. }
    assert (forall u, u ∈ urls_of (all ++ [x])
                      <-> u ∈ urls_of all \/ u = SearchSource.url x) as Hall.
    { intros u. unfold urls_of. rewrite fmap_app, elem_of_app. simpl.
      by rewrite list_elem_of_singleton. }
    repeat split; cbn [fst snd].
    + intros Hu. apply Hall. apply elem_of_union in Hu as [Hu | Hu].
      * right. by apply elem_of_singleton in Hu.
      * left. by apply Hseen.
    + intros Hu. apply Hall in Hu as [Hu | ->].
      * apply elem_of_union. right. by apply Hseen.
      * apply elem_of_union. left. by apply elem_of_singleton.
    + intros Hu. apply Hsnoc. apply Hall in Hu as [Hu | ->];
        [left; by apply Hurls | by right].
    + intros Hu. apply Hall. apply Hsnoc in Hu as [Hu | ->];
        [left; by apply Hurls | by right].
    + unfold urls_of. rewrite fmap_app. apply NoDup_app. repeat split.
      * exact Hnd.
      * intros u Hu Hx. simpl in Hx. apply list_elem_of_singleton in Hx as ->.
        by apply Hnew, Hurls.
      * simpl. apply NoDup_singleton.
    + intros u. rewrite !with_url_snoc, Hfirst.
      case_decide as Hu; [|by rewrite !app_nil_r].
      subst u. by rewrite (with_url_nil _ _ Hnew).
    + by apply sublist_app.
Qed.

Lemma merge_inv_sources l : merge_inv l (merge_sources ([], ∅) l).
Proof.
  induction l as [|x l IH] using rev_ind; [apply merge_inv_init|].
  unfold merge_sources in *. rewrite foldl_app. simpl.
  by apply merge_inv_snoc.
Qed.

End Merge.

(** C5: over the results of the searches for the rewritten queries, in
    order, the merge step yields a list whose urls are pairwise distinct;
    for every url it holds exactly the first record that carries that url
    in the concatenated results (with that record's title and snippet) and
    no later one; and it keeps the order of the results. *)
Theorem search_sources_first_occurrence
    (results : list (list SearchSource.t)) :
  exists all_sources,
    WebSearchSkill.search_sources (Py.Ret <$> results) = Py.Ret all_sources
    /\ NoDup (SearchSpec.urls_of all_sources)
    /\ (forall u,
          SearchSpec.with_url u all_sources
          = option_list (head (SearchSpec.with_url u (concat results))))
    /\ all_sources `sublist_of` concat results.
Proof.
  exists (WebSearchSkill.merge_sources ([], ∅) (concat results)).1.
  pose proof (merge_inv_sources (concat results)) as (_ & _ & Hnd & Hf & Hs).
  split; [|by repeat split].
  unfold WebSearchSkill.search_sources. by rewrite search_loop_ok.
Qed.

(** ** search_serper.py *)

Section Payload.

Import SerperSearch Py.

Lemma payload_keys_distinct :
  u8 "tbs" <> u8 "hl" /\ u8 "tbs" <> u8 "gl" /\ u8 "tbs" <> u8 "num"
  /\ u8 "tbs" <> u8 "q".
Proof. repeat split; discriminate. Qed.

Lemma given_None (o : option str) :
  given o = None <-> o = None \/ o = Some [].
Proof.
  destruct o as [[|c s]|]; simpl; split; try done; auto.
  - intros [|]; discriminate.
Qed.

Lemma given_Some (o : option str) t : given o = Some t -> o = Some t /\ t <> [].
Proof. destruct o as [[|c s]|]; simpl; intros [= <-]; done. Qed.

End Payload.

(** C3, as stated, fails: a time period ["day"] is sent as ["qdr:day"];
    no translation to the shorthand ["d"] takes place. *)
Lemma payload_day_not_translated :
  SerperSearch.build_payload (u8 "q") 8 None None (Some (u8 "day"))
    !! u8 "tbs"
  = Some (Py.VStr (u8 "qdr:day"))
  /\ SerperSearch.build_payload (u8 "q") 8 None None (Some (u8 "day"))
       !! u8 "tbs"
     <> Some (Py.VStr (u8 "qdr:" ++ SearchSpec.provider_shorthand (u8 "day"))).
Proof.
  assert (SerperSearch.build_payload (u8 "q") 8 None None (Some (u8 "day"))
            !! u8 "tbs" = Some (Py.VStr (u8 "qdr:day"))) as H.
  { unfold SerperSearch.build_payload. simpl Py.given. cbv iota.
    apply lookup_insert_eq. }
  split; [exact H|]. rewrite H. vm_compute. discriminate.
Qed.

(** C3 (amended): when [time_period] is a non-empty string the request
    carries the field [tbs] with the value ["qdr:"] followed by that string
    as passed, without translation; when [time_period] is [None] or empty
    no [tbs] field is sent. *)
Theorem build_payload_tbs (query : str) (num_results : Z)
    (country language time_period : option str) :
  SerperSearch.build_payload query num_results country language time_period
    !! u8 "tbs"
  = (fun t => Py.VStr (u8 "qdr:" ++ t)) <$> Py.given time_period
  /\ (Py.given time_period = None
      <-> time_period = None \/ time_period = Some [])
  /\ (forall t, Py.given time_period = Some t -> time_period = Some t).
Proof.
  split; [|split].
  - destruct payload_keys_distinct as (Hhl & Hgl & Hnum & Hq).
    unfold SerperSearch.build_payload.
    destruct (Py.given time_period) as [t|]; simpl.
    + apply lookup_insert_eq.
    + destruct (Py.given language), (Py.given country);
        repeat (rewrite lookup_insert_ne by done); apply lookup_empty.
  - apply given_None.
  - intros t Ht. by apply given_Some in Ht as [-> _].
Qed.

(** ** query_rewriter.py *)

Section Rewriter.

Import QueryRewriter Py RewriterSpec.

Variable lower : str -> str.
Variable json_loads : str -> result value.

(** The rules know two recency values only. *)
Lemma rule_time_filter_values user_query user_location user_language :
  let plan := rewrite_with_rules lower user_query user_location user_language in
  rule_time_filter plan = None
  \/ rule_time_filter plan = Some (u8 "w")
  \/ rule_time_filter plan = Some (u8 "m").
Proof.
  unfold rewrite_with_rules. cbv zeta. cbn [rule_time_filter].
  destruct (startswith (strip user_query) (u8 "最近")); [auto|].
  destruct (existsb _ news_keywords); auto.
Qed.

Lemma plain_intro e :
  e <> JSONDecodeError -> e <> ValueError -> e <> UnicodeEncodeError ->
  e <> UnicodeDecodeError -> plain e.
Proof. intros H1 H2 H3 H4 [?|[?|[?|?]]]; done. Qed.

Lemma value_error_cases e : value_error e \/ plain e.
Proof.
  destruct e; try (right; by apply plain_intro);
    left; unfold value_error; auto.
Qed.

Lemma getitem_str_plain v k e : getitem_str v k = Raise e -> plain e.
Proof.
  destruct v as [| | | | |l|d]; simpl;
    try (intros [= <-]; by apply plain_intro).
  destruct (assoc k d); [discriminate|]. intros [= <-]. by apply plain_intro.
Qed.

Lemma getitem_0_plain v e : getitem_0 v = Raise e -> plain e.
Proof.
  destruct v as [| | | |[|c s]|[|x l]|d]; simpl;
    try discriminate; intros [= <-]; by apply plain_intro.
Qed.

Lemma str_strip_plain v e : str_strip v = Raise e -> plain e.
Proof.
  destruct v; simpl; try discriminate; intros [= <-]; by apply plain_intro.
Qed.

Lemma message_content_plain data e :
  message_content (Response (Ret data)) = Raise e -> plain e.
Proof.
  unfold message_content, bind.
  destruct (getitem_str data (u8 "choices")) as [choices|e1] eqn:H1;
    [|intros [= <-]; by eapply getitem_str_plain].
  destruct (getitem_0 choices) as [choice|e2] eqn:H2;
    [|intros [= <-]; by eapply getitem_0_plain].
  destruct (getitem_str choice (u8 "message")) as [message|e3] eqn:H3;
    [|intros [= <-]; by eapply getitem_str_plain].
  destruct (getitem_str message (u8 "content")) as [content|e4] eqn:H4;
    [|intros [= <-]; by eapply getitem_str_plain].
  apply str_strip_plain.
Qed.

Lemma handle_bound text e fallback : handle (Some text) e fallback = Ret fallback.
Proof. by destruct e. Qed.

Lemma handle_plain text e fallback :
  plain e -> handle text e fallback = Ret fallback.
Proof.
  intros Hp. destruct e; try reflexivity; exfalso; apply Hp;
    unfold value_error; auto.
Qed.

Lemma handle_unbound e fallback :
  value_error e -> handle None e fallback = Raise UnboundLocalError.
Proof. intros [He|[He|[He|He]]]; by rewrite He. Qed.

(** The try block stops before [text] is assigned with a [ValueError]
    exactly on the exchanges of [raises_before_text]. *)
Lemma message_content_value_error exchange e :
  message_content exchange = Raise e ->
  value_error e <-> raises_before_text exchange.
Proof.
  intros Hm. destruct exchange as [e' | code | [data|e']].
  - injection Hm as ->. split.
    + intros He. exists e. auto.
    + intros (e'' & He & [Heq | Heq]); [|discriminate].
      by injection Heq as ->.
  - injection Hm as <-. split.
    + intros [?|[?|[?|?]]]; discriminate.
    + intros (e'' & _ & [Heq | Heq]); discriminate.
  - apply message_content_plain in Hm. split; [done|].
    intros (e'' & _ & [Heq | Heq]); discriminate.
  - injection Hm as ->. split.
    + intros He. exists e. auto.
    + intros (e'' & He & [Heq | Heq]); [discriminate|].
      by injection Heq as ->.
Qed.

(** Every exchange on which neither the request nor [response.json()]
    raises a [ValueError] makes the LLM path return a plan (the one read
    from the model's answer, or the plan of the rules). *)
Lemma rewrite_with_llm_returns user_query user_location user_language exchange :
  ~ raises_before_text exchange ->
  exists plan,
    rewrite_with_llm lower json_loads user_query user_location user_language
      exchange = Ret plan.
Proof.
  intros Hex. unfold rewrite_with_llm.
  destruct (message_content exchange) as [content|e] eqn:Hm.
  - destruct (plan_of_text json_loads (clean_fences content)) as [plan|e];
      [eauto|].
    rewrite handle_bound. eauto.
  - rewrite handle_plain; [eauto|].
    intros He. by apply Hex, (message_content_value_error _ _ Hm).
Qed.

End Rewriter.

(** C4, as stated, fails: whatever the lowercase mapping, the rules do not
    give the recency value ["d"] for this query. *)
Lemma beijing_weather_not_day :
  ~ exists lower,
      QueryRewriter.rule_time_filter
        (QueryRewriter.rewrite_with_rules lower Scenario.beijing_weather None
           (u8 "zh-cn"))
      = Some (u8 "d").
Proof.
  intros [lower H].
  destruct (rule_time_filter_values lower Scenario.beijing_weather None
              (u8 "zh-cn")) as [H' | [H' | H']];
    rewrite H' in H; discriminate.
Qed.

(** C4 (amended): for the query ["北京今天天气怎么样"] with no LLM key the
    rewrite takes the rule path and gives language ["zh-cn"], recency
    ["w"] (a week: the query matches the keyword ["今天"]) and search type
    ["search"], with the query itself as the only search query.  The
    query has no cased letter, so lowercasing leaves it as it is. *)
Theorem rewrite_beijing_weather (lower : str -> str)
    (json_loads : str -> Py.result Py.value) (user_location : option str)
    (user_language : str) (exchange : QueryRewriter.llm_exchange) :
  lower Scenario.beijing_weather = Scenario.beijing_weather ->
  QueryRewriter.rewrite lower json_loads None Scenario.beijing_weather
    user_location user_language exchange
  = Py.Ret (QueryRewriter.plan_of_rules
              (QueryRewriter.mkRulePlan [Scenario.beijing_weather]
                 (u8 "zh-cn") (Some (u8 "w")) (u8 "search"))).
Proof.
  intros Hlower. unfold QueryRewriter.rewrite. simpl Py.given. cbv iota.
  do 2 f_equal. unfold QueryRewriter.rewrite_with_rules.
  change (strip Scenario.beijing_weather) with Scenario.beijing_weather.
  cbv zeta. rewrite Hlower.
  destruct (Py.given user_location); vm_compute; reflexivity.
Qed.

(** The lowercase mapping of ASCII letters leaves the query as it is. *)
Lemma rewrite_beijing_weather_witness :
  QueryRewriter.rewrite ascii_lower Scenario.no_json None
    Scenario.beijing_weather None (u8 "zh-cn")
    (QueryRewriter.RequestFailed Py.TransportError)
  = Py.Ret (QueryRewriter.plan_of_rules
              (QueryRewriter.mkRulePlan [Scenario.beijing_weather]
                 (u8 "zh-cn") (Some (u8 "w")) (u8 "search"))).
Proof.
  apply (rewrite_beijing_weather ascii_lower Scenario.no_json None (u8 "zh-cn")
           (QueryRewriter.RequestFailed Py.TransportError)).
  vm_compute. reflexivity.
Defined.

(** C1: with an LLM key configured, a response whose body does not decode
    as JSON makes [response.json()] raise [JSONDecodeError] before [text]
    is assigned; the except clause for it reads [text], and the
    [UnboundLocalError] this raises leaves [rewrite]. *)
Theorem rewrite_raises_on_undecodable_body (lower : str -> str)
    (json_loads : str -> Py.result Py.value) (c : N) (key : str)
    (user_query : str) (user_location : option str) (user_language : str) :
  QueryRewriter.rewrite lower json_loads (Some (c :: key)) user_query
    user_location user_language
    (QueryRewriter.Response (Py.Raise Py.JSONDecodeError))
  = Py.Raise Py.UnboundLocalError.
Proof. reflexivity. Qed.

(** ** Further properties of the pipeline *)

(** The rule-based rewrite returns between one and three search queries. *)
Lemma rewrite_with_rules_query_count (lower : str -> str)
    (user_query : str) (user_location : option str) (user_language : str) :
  (1 <= length (QueryRewriter.rule_queries
                  (QueryRewriter.rewrite_with_rules lower user_query
                     user_location user_language)) <= 3)%nat.
Proof.
  unfold QueryRewriter.rewrite_with_rules. cbv zeta.
  cbn [QueryRewriter.rule_queries]. rewrite length_take.
  set (base := if (15 <? len (strip user_query))%Z then _ else _).
  assert (1 <= length base)%nat as Hbase.
  { subst base. destruct (15 <? len (strip user_query))%Z; [|simpl; lia].
    destruct (_ && _); simpl; lia. }
  destruct (Py.given user_location) as [location|]; [|lia].
  destruct (existsb _ QueryRewriter.location_keywords); [|lia].
  rewrite length_app. cbn [length]. lia.
Qed.

(** X3: a search that raises ends the loop over the rewritten queries: the
    error leaves the orchestrator and no source list is returned. *)
Theorem search_sources_propagates (before : list (list SearchSource.t))
    (e : Py.exn) (after : list (Py.result (list SearchSource.t))) :
  WebSearchSkill.search_sources ((Py.Ret <$> before) ++ Py.Raise e :: after)
  = Py.Raise e.
Proof.
  unfold WebSearchSkill.search_sources.
  generalize (([], ∅) : WebSearchSkill.merge_state).
  induction before as [|r rs IH]; intros st; simpl; [reflexivity|].
  apply IH.
Qed.

(** [fetch_one] always returns a page: for a response it is marked
    successful and [word_count] is the length of the kept body; for a
    timeout, a status error or any other error it is marked failed, its
    body and title are empty and its error message is set. *)
Lemma fetch_one_total (url timeout : str) (max_length : Z)
    (exchange : JinaFetcher.http_result) :
  let page := JinaFetcher.fetch_one url timeout max_length exchange in
  FetchedContent.url page = url
  /\ match exchange with
     | JinaFetcher.Response _ =>
       FetchedContent.success page = true
       /\ FetchedContent.error page = None
       /\ FetchedContent.word_count page = len (FetchedContent.content page)
     | _ =>
       FetchedContent.success page = false
       /\ FetchedContent.content page = []
       /\ FetchedContent.title page = []
       /\ FetchedContent.word_count page = 0%Z
       /\ is_Some (FetchedContent.error page)
     end.
Proof. destruct exchange; simpl; repeat split; eauto. Qed.

(** ** The content cleaner, line by line *)

Section CleanedLines.

Import JinaFetcher CleanSpec LineSpec.

Lemma split_on_cons sep s : exists w ws, split_on sep s = w :: ws.
Proof.
  destruct s as [|c s]; simpl; [eauto|].
  destruct (c =? sep); [eauto|]. destruct (split_on sep s); eauto.
Qed.

Lemma join_cons_char sep c w ws :
  join sep ((c :: w) :: ws) = c :: join sep (w :: ws).
Proof. by destruct ws. Qed.

(** Splitting a text at the line feeds and joining the lines again gives
    the text back. *)
Lemma join_split_on (s : str) : join [LF] (split_on LF s) = s.
Proof.
  induction s as [|c s IH]; [reflexivity|].
  destruct (split_on_cons LF s) as (w & ws & Hs).
  change (split_on LF (c :: s))
    with (if c =? LF then [] :: split_on LF s
          else match split_on LF s with
               | [] => [[c]]
               | w :: ws => (c :: w) :: ws
               end).
  rewrite Hs in *. destruct (N.eqb_spec c LF) as [->|Hc].
  - change (join [LF] ([] :: w :: ws)) with (LF :: join [LF] (w :: ws)).
    by rewrite IH.
  - rewrite join_cons_char. f_equal. exact IH.
Qed.

(** The lines of a text hold no line feed. *)
Lemma split_on_no_sep sep s : Forall (fun w => sep ∉ w) (split_on sep s).
Proof.
  induction s as [|c s IH]; simpl.
  - repeat constructor. apply not_elem_of_nil.
  - destruct (N.eqb_spec c sep) as [->|Hc].
    + constructor; [apply not_elem_of_nil | exact IH].
    + destruct (split_on sep s) as [|w ws].
      * repeat constructor. intros Hin. apply elem_of_cons in Hin as [->|Hin];
          [done | by apply elem_of_nil in Hin].
      * apply Forall_cons in IH as [Hw Hws]. constructor; [|exact Hws].
        intros Hin. apply elem_of_cons in Hin as [->|Hin]; done.
Qed.

Lemma filter_lf_none (w : list N) :
  LF ∉ w -> filter (fun c => c = LF) w = [].
Proof.
  induction w as [|c w IH]; intros Hw; [reflexivity|].
  rewrite filter_cons. case_decide as Hc.
  - subst c. exfalso. apply Hw. left.
  - apply IH. intros ?. apply Hw. by right.
Qed.

(** Lines without line feed, joined: one line feed per line after the
    first. *)
Lemma join_count_lf w ws :
  Forall (fun l => LF ∉ l) (w :: ws) ->
  length (filter (fun c => c = LF) (join [LF] (w :: ws) : list N)) = length ws.
Proof.
  revert w. induction ws as [|w' ws IH]; intros w Hall;
    apply Forall_cons in Hall as [Hw Hall].
  - change (join [LF] [w]) with w. by rewrite filter_lf_none.
  - change (join [LF] (w :: w' :: ws)) with (w ++ [LF] ++ join [LF] (w' :: ws)).
    rewrite !filter_app, !length_app, (IH w' Hall), filter_lf_none by done.
    reflexivity.
Qed.

Lemma clean_lines_single before line :
  clean_lines (run_length before) [line]
  = if dropped before line then [] else [line].
Proof.
  rewrite clean_lines_cons. unfold dropped.
  destruct (short_link_line line); cbv zeta.
  - change (3 <? S (run_length before))%nat with (3 <=? run_length before)%nat.
    destruct (3 <=? run_length before)%nat; [reflexivity|].
    destruct (is_image (strip line)); [reflexivity|].
    destruct (has_blob (strip line)); reflexivity.
  - destruct (is_image (strip line)); [reflexivity|].
    destruct (has_blob (strip line)); reflexivity.
Qed.

Lemma clean_lines_sublist_of n lines : clean_lines n lines `sublist_of` lines.
Proof.
  revert n. induction lines as [|line rest IH]; intros n; [constructor|].
  rewrite clean_lines_cons. cbv zeta.
  destruct (_ && _); [by apply sublist_cons|].
  destruct (is_image (strip line)); [by apply sublist_cons|].
  destruct (has_blob (strip line)); [by apply sublist_cons|].
  by apply sublist_skip.
Qed.

Lemma clean_lines_filtered n lines :
  Forall (fun line => is_image (strip line) = false
                      /\ has_blob (strip line) = false)
         (clean_lines n lines).
Proof.
  revert n. induction lines as [|line rest IH]; intros n; [constructor|].
  rewrite clean_lines_cons. cbv zeta.
  destruct (_ && _); [apply IH|].
  destruct (is_image (strip line)) eqn:Hi; [apply IH|].
  destruct (has_blob (strip line)) eqn:Hb; [apply IH|].
  constructor; [by split | apply IH].
Qed.

(** X7: the cleaner has no filter for a line that is neither a short link
    line, nor an image line, nor a line with ["blob:"]: every such line of
    the input is kept, in order, whatever the counter of the link run. *)
Theorem clean_lines_keeps_ordinary n lines :
  filter ordinary (clean_lines n lines) = filter ordinary lines.
Proof.
  revert n. induction lines as [|line rest IH]; intros n; [reflexivity|].
  rewrite clean_lines_cons. cbv zeta. fold (short_link_line line).
  assert (forall k, ~ ordinary line ->
            filter ordinary (clean_lines k rest) = filter ordinary (line :: rest))
    as Hskip.
  { intros k Hno. by rewrite filter_cons_False, IH. }
  destruct (short_link_line line) eqn:Hs.
  - assert (~ ordinary line) as Hno by (intros (H & _); congruence).
    destruct (_ && _); [by apply Hskip|].
    destruct (is_image (strip line)); [by apply Hskip|].
    destruct (has_blob (strip line)); [by apply Hskip|].
    by rewrite !filter_cons_False, IH.
  - simpl andb. cbv iota.
    destruct (is_image (strip line)) eqn:Hi.
    { apply Hskip. intros (_ & H & _). congruence. }
    destruct (has_blob (strip line)) eqn:Hb.
    { apply Hskip. intros (_ & _ & H). congruence. }
    by rewrite !filter_cons_True, IH by done.
Qed.

Lemma clean_lines_all_kept lines :
  (forall before line after,
     lines = before ++ line :: after -> dropped before line = false) ->
  clean_lines 0 lines = lines.
Proof.
  induction lines as [|x xs IH] using rev_ind; intros Hkeep; [reflexivity|].
  rewrite clean_lines_app, counter_after_run, clean_lines_single.
  rewrite (Hkeep xs x [] eq_refl). rewrite IH; [reflexivity|].
  intros before line after ->.
  apply (Hkeep before line (after ++ [x])). by rewrite <- app_assoc.
Qed.

Lemma clean_lines_some_dropped before line after :
  dropped before line = true ->
  (length (clean_lines 0 (before ++ line :: after))
   < length (before ++ line :: after))%nat.
Proof.
  intros Hd.
  rewrite clean_lines_app, counter_after_run.
  change (line :: after) with ([line] ++ after).
  rewrite clean_lines_app, clean_lines_single, Hd, !length_app.
  set (n := counter_after (run_length before) [line]).
  pose proof (sublist_length _ _ (clean_lines_sublist_of 0 before)).
  pose proof (sublist_length _ _ (clean_lines_sublist_of n after)).
  cbn [length app]. lia.
Qed.

End CleanedLines.

(** X6: the lines that [_clean_content] joins are a subsequence of the
    lines of the input, in their order, and none of them is a pure image
    line or contains ["blob:"]. *)
Theorem clean_content_kept_lines (text : str) :
  exists kept,
    JinaFetcher.clean_content text = join [LF] kept
    /\ kept `sublist_of` split_on LF text
    /\ Forall (fun line => JinaFetcher.is_image (strip line) = false
                           /\ JinaFetcher.has_blob (strip line) = false)
              kept.
Proof.
  exists (JinaFetcher.clean_lines 0 (split_on LF text)).
  split; [reflexivity|]. split.
  - apply clean_lines_sublist_of.
  - apply clean_lines_filtered.
Qed.

(** X8: [_clean_content] returns its input unchanged exactly when the loop
    drops none of its lines: no image line, no line with ["blob:"] and no
    short link line that is the 4th or later of its run. *)
Theorem clean_content_unchanged (text : str) :
  JinaFetcher.clean_content text = text
  <-> forall before line after,
        split_on LF text = before ++ line :: after ->
        CleanSpec.dropped before line = false.
Proof.
  unfold JinaFetcher.clean_content. split.
  - intros Heq before line after Hsplit.
    destruct (CleanSpec.dropped before line) eqn:Hd; [|reflexivity].
    exfalso.
    pose proof (clean_lines_some_dropped before line after Hd) as Hlt.
    rewrite <- Hsplit in Hlt.
    pose proof (split_on_no_sep LF text) as Hlines.
    pose proof (clean_lines_sublist_of 0 (split_on LF text)) as Hsub.
    destruct (JinaFetcher.clean_lines 0 (split_on LF text)) as [|k ks] eqn:Hk.
    + simpl in Heq. subst text. simpl in Hsplit.
      destruct before as [|b before]; [|by destruct before].
      injection Hsplit as <- <-. vm_compute in Hd. discriminate.
    + assert (Forall (fun l => LF ∉ l) (k :: ks)) as Hkept.
      { apply Forall_forall. intros l Hl. rewrite Forall_forall in Hlines.
        apply Hlines. by apply (sublist_subseteq _ _ Hsub). }
      pose proof (join_count_lf k ks Hkept) as Hc1.
      rewrite Heq in Hc1. rewrite <- (join_split_on text) in Hc1 at 1.
      destruct (split_on_cons LF text) as (w & ws & Hs). rewrite Hs in *.
      rewrite (join_count_lf w ws Hlines) in Hc1. simpl in Hlt. lia.
  - intros Hkeep. rewrite clean_lines_all_kept by exact Hkeep.
    apply join_split_on.
Qed.

(** ** One fetch: the bound of the body and the title *)

Section FetchOne.

Import JinaFetcher LineSpec.

Lemma fetch_one_url url timeout max_length exchange :
  FetchedContent.url (fetch_one url timeout max_length exchange) = url.
Proof. by destruct exchange. Qed.

Lemma bounded_content_len max_length text :
  (0 <= max_length)%Z ->
  (len (bounded_content max_length text)
   <= max_length + len truncation_marker)%Z.
Proof.
  intros Hn. unfold bounded_content. cbv zeta.
  destruct (Z.ltb_spec max_length (len (clean_content text))) as [Hlt|Hle].
  - destruct (slice_to_prefix max_length (clean_content text)) as [_ Hl];
      [lia..|].
    rewrite len_app, Hl. lia.
  - change (len truncation_marker) with 12%Z. lia.
Qed.

Lemma extract_title_blanks blanks rest :
  Forall blank blanks ->
  extract_title (blanks ++ rest) = extract_title rest.
Proof.
  induction 1 as [|b blanks Hb _ IH]; [reflexivity|].
  simpl. unfold blank in Hb. by rewrite Hb.
Qed.

End FetchOne.

(** X9: whatever the exchange comes to, the body [fetch_one] returns is at
    most [max_length] characters plus the truncation marker (12
    characters) long, and [word_count] is its length; a cleaned body of at
    most [max_length] characters is returned whole, without marker. *)
Theorem fetch_one_body_bound (url timeout : str) (max_length : Z)
    (exchange : JinaFetcher.http_result) :
  (0 <= max_length)%Z ->
  let page := JinaFetcher.fetch_one url timeout max_length exchange in
  (len (FetchedContent.content page) <= max_length + 12)%Z
  /\ FetchedContent.word_count page = len (FetchedContent.content page)
  /\ forall text,
       exchange = JinaFetcher.Response text ->
       (len (JinaFetcher.clean_content text) <= max_length)%Z ->
       FetchedContent.content page = JinaFetcher.clean_content text.
Proof.
  intros Hn. cbv zeta. split; [|split].
  - destruct exchange; simpl; try (change (len []) with 0%Z; lia).
    apply (bounded_content_len max_length text Hn).
  - by destruct exchange.
  - intros text -> Hfit. simpl. unfold JinaFetcher.bounded_content. cbv zeta.
    destruct (Z.ltb_spec max_length (len (JinaFetcher.clean_content text)));
      [lia|reflexivity].
Qed.

(** A timeout with [max_length = 100]. *)
Lemma fetch_one_body_bound_witness :
  (len (FetchedContent.content
          (JinaFetcher.fetch_one (u8 "https://a.com") (u8 "15.0") 100
             JinaFetcher.TimeoutException))
   <= 100 + 12)%Z.
Proof.
  refine (proj1 (fetch_one_body_bound (u8 "https://a.com") (u8 "15.0") 100
                   JinaFetcher.TimeoutException _)).
  lia.
Defined.

(** X10: the title is read off the first line that is not blank: blank
    lines before it are skipped; a line that starts with ["#"] gives the
    line without its leading ["#"]s and surrounding white space; any
    other line gives its first 100 characters; lines that are all blank
    give the empty title. *)
Theorem extract_title_first_line (blanks : list str) :
  Forall LineSpec.blank blanks ->
  JinaFetcher.extract_title blanks = []
  /\ forall line rest,
       ~ LineSpec.blank line ->
       JinaFetcher.extract_title (blanks ++ line :: rest)
       = (if startswith (strip line) (u8 "#")
          then strip (lstrip_chars (u8 "#") (strip line))
          else take 100 (strip line))
       /\ (startswith (strip line) (u8 "#") = false ->
           (length (JinaFetcher.extract_title (blanks ++ line :: rest))
            <= 100)%nat).
Proof.
  intros Hb. split.
  - rewrite <- (app_nil_r blanks). by rewrite extract_title_blanks.
  - intros line rest Hline.
    assert (JinaFetcher.extract_title (blanks ++ line :: rest)
            = (if startswith (strip line) (u8 "#")
               then strip (lstrip_chars (u8 "#") (strip line))
               else take 100 (strip line))) as Heq.
    { rewrite extract_title_blanks by exact Hb. simpl.
      destruct (startswith (strip line) (u8 "#")); [reflexivity|].
      unfold LineSpec.blank in Hline.
      destruct (strip line) as [|c s] eqn:Hs; [done|reflexivity]. }
    split; [exact Heq|]. intros Hh. rewrite Heq, Hh, length_take. lia.
Qed.

(** A heading after one empty line. *)
Lemma extract_title_first_line_witness :
  JinaFetcher.extract_title ([[]] ++ u8 "## Title " :: [u8 "body"])
  = u8 "Title".
Proof.
  refine (proj1 (proj2 (extract_title_first_line [[]] _)
                   (u8 "## Title ") [u8 "body"] _)).
  - repeat constructor.
  - vm_compute. discriminate.
Defined.

(** ** The rendered context and the reference list *)

Section ContextHeadings.

Import SearchResult.

Lemma content_parts_length m cs i :
  length (enumerate_from (content_parts m) i cs) = (3 * Spec.successes cs)%nat.
Proof.
  unfold Spec.successes. revert i.
  induction cs as [|c cs IH]; intros i; [reflexivity|].
  simpl enumerate_from. rewrite length_app, IH, filter_cons.
  unfold content_parts. destruct (FetchedContent.success c); simpl; lia.
Qed.

Lemma existsb_successes cs :
  existsb FetchedContent.success cs = negb (Spec.successes cs =? 0)%nat.
Proof.
  unfold Spec.successes. induction cs as [|c cs IH]; [reflexivity|].
  simpl existsb. rewrite filter_cons.
  destruct (FetchedContent.success c); simpl; [reflexivity|exact IH].
Qed.

Lemma content_parts_reference m cs i j ref :
  enumerate_from reference_of i cs !! j = Some ref ->
  enumerate_from (content_parts m) i cs !! (3 * j)%nat
  = Some (source_heading_prefix ++ of_nat (Reference.index ref) ++ u8 "]: "
          ++ Reference.title ref)
  /\ enumerate_from (content_parts m) i cs !! (3 * j + 1)%nat
     = Some (u8 "URL: " ++ Reference.url ref).
Proof.
  revert i j. induction cs as [|c cs IH]; intros i j; [done|].
  simpl enumerate_from. unfold reference_of at 1, content_parts at 1 3.
  destruct (FetchedContent.success c); cbn [negb app].
  - destruct j as [|j].
    + intros [= <-]. by split.
    + intros Hj. destruct (IH (S i) j Hj) as [H1 H2].
      replace (3 * S j)%nat with (S (S (S (3 * j)))) by lia.
      replace (S (S (S (3 * j))) + 1)%nat with (S (S (S (3 * j + 1)))) by lia.
      by split.
  - apply IH.
Qed.

End ContextHeadings.

(** X11: the rendered context and the reference list number the pages
    alike: the [j]-th reference has its heading ["### Source [index]:
    title"] and its url line as parts [1 + 3j] and [2 + 3j] of the
    context; the context has one query heading and three parts per
    successful page, and the snippet section (a heading and three parts
    per source) is there exactly when no page succeeded. *)
Theorem to_context_string_references (r : SearchResult.t) (m : Z) :
  let parts := SearchResult.to_context_parts r m in
  let k := Spec.successes (SearchResult.contents r) in
  SearchResult.to_context_string r m = join [LF] parts
  /\ length parts
     = (1 + 3 * k
        + (if (k =? 0)%nat then 1 + 3 * length (SearchResult.sources r) else 0))%nat
  /\ forall j ref,
       SearchResult.get_reference_list r !! j = Some ref ->
       parts !! (1 + 3 * j)%nat
       = Some (SearchResult.source_heading_prefix
               ++ of_nat (Reference.index ref) ++ u8 "]: "
               ++ Reference.title ref)
       /\ parts !! (2 + 3 * j)%nat = Some (u8 "URL: " ++ Reference.url ref).
Proof.
  cbv zeta. split; [reflexivity|]. unfold SearchResult.to_context_parts.
  split.
  - rewrite !length_app, content_parts_length, existsb_successes, negb_involutive.
    destruct (Spec.successes (SearchResult.contents r) =? 0)%nat; simpl.
    + rewrite source_parts_length. lia.
    + lia.
  - intros j ref Hj.
    destruct (content_parts_reference m _ 0 j ref Hj) as [H1 H2].
    pose proof (lookup_lt_Some _ _ _ H1) as Hlt1.
    pose proof (lookup_lt_Some _ _ _ H2) as Hlt2.
    assert (forall (x : str) (l : list str) n, ([x] ++ l) !! S n = l !! n)
      as Hcons by reflexivity.
    split.
    + replace (1 + 3 * j)%nat with (S (3 * j)) by lia.
      by rewrite Hcons, lookup_app_l.
    + replace (2 + 3 * j)%nat with (S (3 * j + 1)) by lia.
      by rewrite Hcons, lookup_app_l.
Qed.

(** ** The rewriter: the rules, the JSON extraction, the plan *)

Section RewriterPlan.

Import QueryRewriter Py PlanSpec.

Variable lower : str -> str.
Variable json_loads : str -> result value.

Lemma find_char_spec c s n :
  find_char c s = Some n -> s !! n = Some c /\ c ∉ take n s.
Proof.
  revert n. induction s as [|d s IH]; intros n; simpl; [done|].
  destruct (N.eqb_spec d c) as [->|Hd].
  - intros [= <-]. split; [reflexivity | apply not_elem_of_nil].
  - destruct (find_char c s) as [m|]; simpl; [|done].
    intros [= <-]. destruct (IH m eq_refl) as [H1 H2]. split; [exact H1|].
    simpl. intros [->|Hin]%elem_of_cons; done.
Qed.

Lemma find_char_None c s : find_char c s = None -> c ∉ s.
Proof.
  induction s as [|d s IH]; simpl; [intros _; apply not_elem_of_nil|].
  destruct (N.eqb_spec d c) as [->|Hd]; [discriminate|].
  destruct (find_char c s); [discriminate|]. intros _.
  intros [->|Hin]%elem_of_cons; [done | by apply IH].
Qed.

Lemma balance_cons c s :
  balance (c :: s)
  = Z.add (if c =? 123 then 1%Z else if c =? 125 then (-1)%Z else 0%Z)
          (balance s).
Proof. reflexivity. Qed.

(** The scan from a positive depth: it stops at the first brace that
    brings the depth to 0, and until then the depth stays positive. *)
Lemma closing_brace_spec s : forall d i,
  (0 < d)%Z ->
  match closing_brace d i s with
  | Some j =>
    exists k, j = (i + k)%nat /\ (k < length s)%nat
              /\ (d + balance (take (S k) s) = 0)%Z
              /\ forall m, (m <= k)%nat -> (0 < d + balance (take m s))%Z
  | None => forall m, (0 < d + balance (take m s))%Z
  end.
Proof.
  induction s as [|c s IH]; intros d i Hd; simpl closing_brace.
  { intros m. rewrite take_nil. simpl. lia. }
  assert (forall k, balance (take (S k) (c :: s))
                    = Z.add (if c =? 123 then 1%Z
                             else if c =? 125 then (-1)%Z else 0%Z)
                            (balance (take k s))) as Hbal by reflexivity.
  assert (forall d',
            (0 < d')%Z ->
            d' = Z.add d (if c =? 123 then 1%Z
                          else if c =? 125 then (-1)%Z else 0%Z) ->
            match closing_brace d' (S i) s with
            | Some j =>
              exists k, j = (i + k)%nat /\ (k < length (c :: s))%nat
                        /\ (d + balance (take (S k) (c :: s)) = 0)%Z
                        /\ forall m, (m <= k)%nat ->
                             (0 < d + balance (take m (c :: s)))%Z
            | None => forall m, (0 < d + balance (take m (c :: s)))%Z
            end) as Hgo.
  { intros d' Hd' Heq. specialize (IH d' (S i) Hd').
    destruct (closing_brace d' (S i) s) as [j|].
    - destruct IH as (k & -> & Hk & Hb & Hpos). exists (S k).
      split; [lia|]. split; [simpl; lia|]. split; [rewrite Hbal; lia|].
      intros [|m] Hm; [simpl; lia|]. rewrite Hbal.
      specialize (Hpos m). lia.
    - intros [|m]; [simpl; lia|]. rewrite Hbal. specialize (IH m). lia. }
  destruct (c =? 123) eqn:H123; [apply Hgo; lia|].
  destruct (c =? 125) eqn:H125; [|apply Hgo; lia].
  destruct (Z.eqb_spec (d - 1) 0) as [Hz|Hz]; [|apply Hgo; lia].
  exists O. split; [lia|]. split; [simpl; lia|].
  split; [rewrite Hbal; change (balance (take 0 s)) with 0%Z; lia|].
  intros m Hm. replace m with O by lia. simpl. lia.
Qed.

Lemma plan_of_text_one_to_three text plan :
  plan_of_text json_loads text = Ret plan ->
  one_to_three (search_queries plan).
Proof.
  unfold plan_of_text. destruct text as [|c text]; [discriminate|].
  unfold bind.
  destruct (extract_json_from_text json_loads (c :: text)) as [result|];
    [|discriminate].
  destruct (contains_str result (u8 "search_queries")) as [[|]|];
    simpl; try discriminate.
  destruct (getitem_str result (u8 "search_queries")) as [queries|];
    [|discriminate].
  destruct (truthy queries) eqn:Ht; simpl; [|discriminate].
  destruct (slice_3 queries) as [queries3|] eqn:Hq; [|discriminate].
  destruct (dict_get result (u8 "language") _) as [language|]; [|discriminate].
  destruct (dict_get result (u8 "time_filter") _) as [time_filter|];
    [|discriminate].
  destruct (dict_get result (u8 "search_type") _) as [search_type|];
    [|discriminate].
  intros [= <-]. simpl.
  destruct queries as [| | | |s|l|d]; try discriminate; injection Hq as <-.
  - right. exists (take 3 s). split; [reflexivity|].
    destruct s as [|a s]; [discriminate|].
    rewrite length_take. cbn [length]. lia.
  - left. exists (take 3 l). split; [reflexivity|].
    destruct l as [|a l]; [discriminate|].
    rewrite length_take. cbn [length]. lia.
Qed.

Lemma plan_of_rules_one_to_three user_query user_location user_language :
  one_to_three
    (search_queries
       (plan_of_rules
          (rewrite_with_rules lower user_query user_location user_language))).
Proof.
  left. eexists. split; [reflexivity|]. rewrite length_fmap.
  apply rewrite_with_rules_query_count.
Qed.

End RewriterPlan.

(** X2: the plan of the rules holds one to three queries, the stripped
    user query among them; its language is ["zh-cn"] or ["en"] (["en"]
    whenever the query has no CJK character), its recency filter is
    absent, ["w"] or ["m"], and its search type is ["news"] or
    ["search"]. *)
Theorem rewrite_with_rules_values (lower : str -> str) (user_query : str)
    (user_location : option str) (user_language : str) :
  let plan :=
    QueryRewriter.rewrite_with_rules lower user_query user_location
      user_language in
  (1 <= length (QueryRewriter.rule_queries plan) <= 3)%nat
  /\ strip user_query ∈ QueryRewriter.rule_queries plan
  /\ (QueryRewriter.rule_language plan = u8 "zh-cn"
      \/ QueryRewriter.rule_language plan = u8 "en")
  /\ (QueryRewriter.chinese_chars (strip user_query) = 0%Z ->
      QueryRewriter.rule_language plan = u8 "en")
  /\ (QueryRewriter.rule_time_filter plan = None
      \/ QueryRewriter.rule_time_filter plan = Some (u8 "w")
      \/ QueryRewriter.rule_time_filter plan = Some (u8 "m"))
  /\ (QueryRewriter.rule_search_type plan = u8 "news"
      \/ QueryRewriter.rule_search_type plan = u8 "search").
Proof.
  cbv zeta. split; [apply rewrite_with_rules_query_count|].
  split; [|split; [|split; [|split; [apply rule_time_filter_values|]]]].
  - unfold QueryRewriter.rewrite_with_rules. cbv zeta.
    cbn [QueryRewriter.rule_queries].
    set (base := if (15 <? len (strip user_query))%Z then _ else _).
    assert (exists pre post, base = pre ++ strip user_query :: post
                             /\ (length pre <= 1)%nat) as (pre & post & -> & Hpre).
    { subst base. destruct (15 <? len (strip user_query))%Z.
      - destruct (_ && _).
        + exists [QueryRewriter.cut_prefix QueryRewriter.prefix_words
                    (strip user_query)], [].
          split; [reflexivity | simpl; lia].
        + exists [], []. split; [reflexivity | simpl; lia].
      - exists [], []. split; [reflexivity | simpl; lia]. }
    assert (forall extra,
              strip user_query
              ∈ take 3 ((pre ++ strip user_query :: post) ++ extra)) as Hin.
    { intros extra. apply elem_of_take. exists (length pre). split; [|lia].
      rewrite <- app_assoc. by rewrite lookup_app_r, Nat.sub_diag by lia. }
    destruct (Py.given user_location) as [location|].
    + destruct (existsb _ QueryRewriter.location_keywords); [apply Hin|].
      rewrite <- (app_nil_r (pre ++ _ :: post)). apply Hin.
    + rewrite <- (app_nil_r (pre ++ _ :: post)). apply Hin.
  - unfold QueryRewriter.rewrite_with_rules. cbv zeta.
    cbn [QueryRewriter.rule_language]. destruct (_ <? _)%Z; auto.
  - intros Hz. unfold QueryRewriter.rewrite_with_rules. cbv zeta.
    cbn [QueryRewriter.rule_language]. rewrite Hz.
    destruct (Z.ltb_spec (3 * len (strip user_query)) (10 * 0)); [|reflexivity].
    unfold len in *. lia.
  - unfold QueryRewriter.rewrite_with_rules. cbv zeta.
    cbn [QueryRewriter.rule_search_type].
    destruct (existsb _ QueryRewriter.news_type_keywords); auto.
Qed.

(** X5: [rewrite] raises exactly when an LLM key is configured and the
    request or [response.json()] raises a [ValueError] (of any class)
    before [text] is assigned, and what it raises then is
    [UnboundLocalError]; on every other exchange it returns a plan whose
    [search_queries] holds one to three items. *)
Theorem rewrite_outcome (lower : str -> str)
    (json_loads : str -> Py.result Py.value) (llm_api_key : option str)
    (user_query : str) (user_location : option str) (user_language : str)
    (exchange : QueryRewriter.llm_exchange) :
  match QueryRewriter.rewrite lower json_loads llm_api_key user_query
          user_location user_language exchange with
  | Py.Ret plan =>
    PlanSpec.one_to_three (QueryRewriter.search_queries plan)
    /\ ~ (Py.given llm_api_key <> None
          /\ RewriterSpec.raises_before_text exchange)
  | Py.Raise e =>
    e = Py.UnboundLocalError
    /\ Py.given llm_api_key <> None
    /\ RewriterSpec.raises_before_text exchange
  end.
Proof.
  unfold QueryRewriter.rewrite.
  destruct (Py.given llm_api_key) as [key|];
    [|split; [apply plan_of_rules_one_to_three | by intros [? _]]].
  unfold QueryRewriter.rewrite_with_llm.
  set (fallback := QueryRewriter.plan_of_rules _).
  assert (PlanSpec.one_to_three (QueryRewriter.search_queries fallback))
    as Hfb by apply plan_of_rules_one_to_three.
  destruct (QueryRewriter.message_content exchange) as [content|e] eqn:Hm.
  - assert (~ RewriterSpec.raises_before_text exchange) as Hno.
    { intros (e & _ & [-> | ->]); discriminate. }
    destruct (QueryRewriter.plan_of_text json_loads _) as [plan|e] eqn:Hp.
    + split; [by eapply plan_of_text_one_to_three | by intros [_ ?]].
    + rewrite handle_bound. split; [exact Hfb | by intros [_ ?]].
  - pose proof (message_content_value_error _ _ Hm) as Hiff.
    destruct (value_error_cases e) as [He|He].
    + rewrite handle_unbound by exact He.
      split; [reflexivity|]. split; [done | by apply Hiff].
    + rewrite handle_plain by exact He.
      split; [exact Hfb|]. intros [_ Hr]. by apply He, Hiff.
Qed.

(** X12: when the model's answer decodes to an object whose
    [search_queries] is a non-empty list, the plan takes the first three
    queries and, for every other field, the object's value or the default
    (["zh-cn"], no recency filter, ["search"]) when the key is missing. *)
Theorem plan_of_text_defaults (json_loads : str -> Py.result Py.value)
    (text : str) (d : list (str * Py.value)) (q : Py.value)
    (qs : list Py.value) :
  text <> [] ->
  json_loads (strip text) = Py.Ret (Py.VDict d) ->
  Py.assoc (u8 "search_queries") d = Some (Py.VList (q :: qs)) ->
  QueryRewriter.plan_of_text json_loads text
  = Py.Ret (QueryRewriter.mkPlan
              (Py.VList (take 3 (q :: qs)))
              (default (Py.VStr (u8 "zh-cn")) (Py.assoc (u8 "language") d))
              (default Py.VNone (Py.assoc (u8 "time_filter") d))
              (default (Py.VStr (u8 "search"))
                       (Py.assoc (u8 "search_type") d))).
Proof.
  intros Hne Hloads Hq. unfold QueryRewriter.plan_of_text.
  destruct text as [|c text]; [done|].
  unfold QueryRewriter.extract_json_from_text. rewrite Hloads.
  unfold Py.bind. cbn [Py.contains_str Py.getitem_str Py.dict_get].
  rewrite Hq. cbn [negb Py.truthy Py.slice_3].
  by destruct (Py.assoc (u8 "language") d), (Py.assoc (u8 "time_filter") d),
       (Py.assoc (u8 "search_type") d).
Qed.

(** An answer with five queries and no other key. *)
Lemma plan_of_text_defaults_witness :
  QueryRewriter.plan_of_text
    (PlanSpec.fixed_json
       (Py.VDict [(u8 "search_queries",
                   Py.VList [Py.VStr (u8 "a"); Py.VStr (u8 "b");
                             Py.VStr (u8 "c"); Py.VStr (u8 "d");
                             Py.VStr (u8 "e")])]))
    (u8 "{}")
  = Py.Ret (QueryRewriter.mkPlan
              (Py.VList [Py.VStr (u8 "a"); Py.VStr (u8 "b"); Py.VStr (u8 "c")])
              (Py.VStr (u8 "zh-cn")) Py.VNone (Py.VStr (u8 "search"))).
Proof.
  refine (plan_of_text_defaults _ (u8 "{}")
            [(u8 "search_queries",
              Py.VList [Py.VStr (u8 "a"); Py.VStr (u8 "b"); Py.VStr (u8 "c");
                        Py.VStr (u8 "d"); Py.VStr (u8 "e")])]
            (Py.VStr (u8 "a"))
            [Py.VStr (u8 "b"); Py.VStr (u8 "c"); Py.VStr (u8 "d");
             Py.VStr (u8 "e")] _ _ _).
  - vm_compute. discriminate.
  - reflexivity.
  - reflexivity.
Defined.

(** X13: [_extract_json_from_text] returns what the whole stripped text
    decodes to, and passes on every error of that decoding other than
    [JSONDecodeError].  On a [JSONDecodeError] it raises [ValueError] when
    the text has no ["{"] or when the brace opened by the first ["{"] is
    never closed; otherwise its outcome is the outcome of decoding the
    object that starts at the first ["{"] and ends at the brace closing
    it, the shortest prefix from there whose braces balance. *)
Theorem extract_json_from_text_outcome (json_loads : str -> Py.result Py.value)
    (text : str) :
  let outcome := QueryRewriter.extract_json_from_text json_loads text in
  match json_loads (strip text) with
  | Py.Ret v => outcome = Py.Ret v
  | Py.Raise e =>
    (e <> Py.JSONDecodeError /\ outcome = Py.Raise e)
    \/ (e = Py.JSONDecodeError /\ (123 ∉ strip text)
        /\ outcome = Py.Raise Py.ValueError)
    \/ (e = Py.JSONDecodeError
        /\ exists before rest,
             strip text = before ++ rest
             /\ (123 ∉ before)
             /\ head rest = Some 123
             /\ PlanSpec.unclosed rest
             /\ outcome = Py.Raise Py.ValueError)
    \/ (e = Py.JSONDecodeError
        /\ exists before object after,
             strip text = before ++ object ++ after
             /\ (123 ∉ before)
             /\ PlanSpec.first_object object
             /\ outcome = json_loads object)
  end.
Proof.
  cbv zeta. unfold QueryRewriter.extract_json_from_text. cbv zeta.
  set (t := strip text).
  destruct (json_loads t) as [v|e] eqn:Hl; [reflexivity|].
  destruct e; try (left; split; [discriminate | reflexivity]).
  right.
  destruct (find_char 123 t) as [start|] eqn:Hf.
  2: { left. split; [reflexivity|]. split; [|reflexivity].
       by apply find_char_None. }
  right.
  destruct (find_char_spec _ _ _ Hf) as [Hstart Hbefore].
  assert (drop start t = 123 :: drop (S start) t) as Hdrop
    by (by apply drop_S).
  rewrite Hdrop. set (rest := drop (S start) t).
  change (QueryRewriter.closing_brace 0 start (123 :: rest))
    with (QueryRewriter.closing_brace 1 (S start) rest).
  pose proof (closing_brace_spec rest 1 (S start) ltac:(lia)) as Hscan.
  destruct (QueryRewriter.closing_brace 1 (S start) rest) as [j|].
  - right. split; [reflexivity|].
    destruct Hscan as (k & -> & Hk & Hb & Hpos).
    replace (S start + k + 1 - start)%nat with (S (S k)) by lia.
    exists (take start t), (take (S (S k)) (123 :: rest)),
           (drop (S (S k)) (123 :: rest)).
    split; [rewrite take_drop; unfold rest; by rewrite <- Hdrop, take_drop|].
    split; [exact Hbefore|]. split; [|reflexivity].
    split; [reflexivity|].
    split; [change (take (S (S k)) (123 :: rest))
              with (123 :: take (S k) rest); rewrite balance_cons; simpl; lia|].
    intros m. rewrite length_take. cbn [length]. intros Hm.
    destruct m as [|m]; [lia|].
    rewrite take_take. replace (Nat.min (S m) (S (S k))) with (S m) by lia.
    change (take (S m) (123 :: rest)) with (123 :: take m rest).
    rewrite balance_cons. simpl. specialize (Hpos m). lia.
  - left. split; [reflexivity|].
    exists (take start t), (123 :: rest).
    split; [unfold rest; by rewrite <- Hdrop, take_drop|].
    split; [exact Hbefore|]. split; [reflexivity|]. split; [|reflexivity].
    intros m Hm. destruct m as [|m]; [lia|].
    change (take (S m) (123 :: rest)) with (123 :: take m rest).
    rewrite balance_cons. simpl. specialize (Hscan m). lia.
Qed.

(** ** The search request and its results *)

Section SerperResults.

Import SerperSearch Py.

Lemma payload_other_keys :
  u8 "q" <> u8 "num" /\ u8 "gl" <> u8 "num" /\ u8 "gl" <> u8 "q"
  /\ u8 "hl" <> u8 "gl" /\ u8 "hl" <> u8 "num" /\ u8 "hl" <> u8 "q".
Proof. repeat split; discriminate. Qed.

Lemma search_result_positions (organic : list organic_item) :
  SearchSource.position <$> imap source_of_item organic
  = seq 1 (length organic).
Proof.
  apply list_eq. intros i.
  rewrite list_lookup_fmap, list_lookup_imap.
  destruct (organic !! i) as [item|] eqn:Hi; simpl.
  - apply lookup_lt_Some in Hi. rewrite lookup_seq_lt by done.
    f_equal. lia.
  - apply lookup_ge_None in Hi. by rewrite lookup_seq_ge.
Qed.

End SerperResults.

(** X14: the search request always carries the query as [q] and the
    result count as [num]; it carries [gl] and [hl] exactly when a
    non-empty country and language are given, with the given value; and it
    carries no field besides these and [tbs]. *)
Theorem build_payload_fields (query : str) (num_results : Z)
    (country language time_period : option str) :
  let payload :=
    SerperSearch.build_payload query num_results country language
      time_period in
  payload !! u8 "q" = Some (Py.VStr query)
  /\ payload !! u8 "num" = Some (Py.VInt num_results)
  /\ payload !! u8 "gl" = Py.VStr <$> Py.given country
  /\ payload !! u8 "hl" = Py.VStr <$> Py.given language
  /\ forall key, is_Some (payload !! key) ->
       key ∈ [u8 "q"; u8 "num"; u8 "gl"; u8 "hl"; u8 "tbs"].
Proof.
  cbv zeta. unfold SerperSearch.build_payload.
  destruct payload_keys_distinct as (T1 & T2 & T3 & T4).
  destruct payload_other_keys as (K1 & K2 & K3 & K4 & K5 & K6).
  destruct (Py.given time_period) as [t|], (Py.given language) as [l|],
    (Py.given country) as [c|]; simpl;
    (split; [|split; [|split; [|split]]]);
    try (intros key [v Hv];
         repeat (apply lookup_insert_Some in Hv as [[<- _] | [_ Hv]];
                 [set_solver|]);
         by rewrite lookup_empty in Hv);
    repeat first
      [ rewrite lookup_insert_eq; reflexivity
      | rewrite lookup_insert_ne by done
      | rewrite lookup_empty; reflexivity ].
Qed.

(** X15: a search whose request succeeds returns one source per entry of
    the response's [organic] list, in the response's order, ranked 1, 2,
    ... by [position], a missing [title], [link] or [snippet] read as the
    empty str; a search whose request fails raises that error. *)
Theorem search_results_ranked
    (exchange : Py.result (list SerperSearch.organic_item)) :
  match exchange with
  | Py.Raise e => SerperSearch.search exchange = Py.Raise e
  | Py.Ret organic =>
    exists results,
      SerperSearch.search exchange = Py.Ret results
      /\ SearchSource.position <$> results = seq 1 (length organic)
      /\ SearchSource.title <$> results
         = (fun item => default [] (SerperSearch.item_title item)) <$> organic
      /\ SearchSource.url <$> results
         = (fun item => default [] (SerperSearch.item_link item)) <$> organic
      /\ SearchSource.snippet <$> results
         = (fun item => default [] (SerperSearch.item_snippet item)) <$> organic
  end.
Proof.
  destruct exchange as [organic|e]; [|reflexivity].
  exists (imap SerperSearch.source_of_item organic).
  split; [reflexivity|]. split; [apply search_result_positions|].
  repeat split; apply list_eq; intros i;
    rewrite !list_lookup_fmap, list_lookup_imap;
    by destruct (organic !! i).
Qed.

(** ** Construction of the skill *)

Lemma given_or_else (a b : option str) :
  Py.given (Pipeline.or_else a b)
  = match Py.given a with
    | Some x => Some x
    | None => Py.given b
    end.
Proof.
  unfold Pipeline.or_else. destruct (Py.given a) as [x|] eqn:Ha; [|reflexivity].
  apply given_Some in Ha as [_ Hx]. by destruct x.
Qed.

(** X16: the constructor fails, with [ValueError], exactly when neither
    the argument nor the environment gives a non-empty search key; a
    non-empty argument wins over the environment for every key; and the
    skill holds no usable LLM key exactly when neither source gives one,
    which is when [rewrite] takes the rule path. *)
Theorem init_outcome (serper_api_key jina_api_key llm_api_key : option str)
    (env : Pipeline.environ) :
  match Pipeline.init serper_api_key jina_api_key llm_api_key env with
  | Py.Raise e =>
    e = Py.ValueError
    /\ Py.given serper_api_key = None
    /\ Py.given (Pipeline.SERPER_API_KEY env) = None
  | Py.Ret self =>
    Pipeline.serper_key self <> []
    /\ Some (Pipeline.serper_key self)
       = match Py.given serper_api_key with
         | Some key => Some key
         | None => Pipeline.SERPER_API_KEY env
         end
    /\ (forall key, Py.given jina_api_key = Some key ->
          Pipeline.jina_key self = Some key)
    /\ (forall key, Py.given llm_api_key = Some key ->
          Pipeline.llm_key self = Some key)
    /\ (Py.given (Pipeline.llm_key self) = None
        <-> Py.given llm_api_key = None
            /\ Py.given (Pipeline.GLM_API_KEY env) = None)
  end.
Proof.
  assert (forall l e, Py.given (Pipeline.or_else l e) = None
                      <-> Py.given l = None /\ Py.given e = None) as Hnone.
  { intros l e. rewrite given_or_else.
    destruct (Py.given l); [split; [done | by intros [? _]]|].
    split; [by intros ? | by intros [_ ?]]. }
  unfold Pipeline.init. rewrite given_or_else.
  destruct (Py.given serper_api_key) as [k|] eqn:Hs.
  - apply given_Some in Hs as [_ Hk].
    cbn [Pipeline.serper_key Pipeline.jina_key Pipeline.llm_key].
    split; [exact Hk|]. split; [reflexivity|].
    split; [intros key Hj; unfold Pipeline.or_else; by rewrite Hj|].
    split; [intros key Hl; unfold Pipeline.or_else; by rewrite Hl|].
    apply Hnone.
  - destruct (Py.given (Pipeline.SERPER_API_KEY env)) as [k|] eqn:He;
      [|done].
    pose proof (given_Some _ _ He) as [Henv Hk].
    cbn [Pipeline.serper_key Pipeline.jina_key Pipeline.llm_key].
    split; [exact Hk|]. split; [by rewrite Henv|].
    split; [intros key Hj; unfold Pipeline.or_else; by rewrite Hj|].
    split; [intros key Hl; unfold Pipeline.or_else; by rewrite Hl|].
    apply Hnone.
Qed.

(** ** The whole request *)

Section WholeRequest.

Import Py WebSearchSkill SearchSpec.

Lemma fetch_many_results urls max_concurrent timeout max_length network res :
  JinaFetcher.fetch_many urls max_concurrent timeout max_length network res ->
  res = GatherSpec.results_in_order urls timeout max_length network.
Proof.
  intros (st & Hrun & Hdone & Hres).
  rewrite (gather_done_result urls timeout max_length network st) in Hres.
  - by injection Hres.
  - eapply gather_inv_run; [exact Hrun | apply gather_inv_init].
  - exact Hdone.
Qed.

Lemma fetch_many_exists urls max_concurrent timeout max_length network :
  (0 < max_concurrent)%Z ->
  JinaFetcher.fetch_many urls max_concurrent timeout max_length network
    (GatherSpec.results_in_order urls timeout max_length network).
Proof.
  intros Hpos.
  destruct (gather_serve urls max_concurrent timeout max_length network
              (seq 0 (length urls)) Hpos (replicate (length urls) None))
    as [s' Hrun].
  exists (JinaFetcher.GatherState [] [] s'). split; [exact Hrun|].
  split; [by split|].
  apply gather_done_result; [|by split].
  eapply gather_inv_run; [exact Hrun | apply gather_inv_init].
Qed.

Lemma results_in_order_urls urls timeout max_length network :
  FetchedContent.url
    <$> GatherSpec.results_in_order urls timeout max_length network
  = urls.
Proof.
  unfold GatherSpec.results_in_order. apply list_eq. intros i.
  rewrite list_lookup_fmap, list_lookup_imap.
  destruct (urls !! i); simpl; [|reflexivity].
  by rewrite fetch_one_url.
Qed.

Lemma search_loop_returns searches st st' :
  search_loop searches st = Ret st' ->
  exists results, searches = Ret <$> results.
Proof.
  revert st. induction searches as [|[sources|e] rest IH]; intros st; simpl.
  - intros _. by exists [].
  - intros Hrest. destruct (IH _ Hrest) as [results ->].
    by exists (sources :: results).
  - discriminate.
Qed.

Lemma search_sources_NoDup searches all_sources :
  search_sources searches = Ret all_sources -> NoDup (urls_of all_sources).
Proof.
  unfold search_sources.
  destruct (search_loop searches ([], ∅)) as [st|e] eqn:Hloop; [|discriminate].
  intros [= <-]. destruct (search_loop_returns _ _ _ Hloop) as [results ->].
  rewrite search_loop_ok in Hloop. injection Hloop as <-.
  by pose proof (merge_inv_sources (concat results)) as (_ & _ & Hnd & _).
Qed.

Lemma slice_list_take {A} (n : Z) (l : list A) :
  exists k, Pipeline.slice_list n l = take k l
            /\ ((0 <= n)%Z -> k = Z.to_nat n).
Proof.
  unfold Pipeline.slice_list. destruct (Z.leb_spec 0 n); eexists; split;
    try reflexivity; intros; lia.
Qed.

Variable lower : str -> str.
Variable json_loads : str -> result value.
Variable self : Pipeline.skill.
Variable query : str.
Variable user_location : option str.
Variable user_language : str.
Variable fetch_top_n : Z.
Variable max_content_length : Z.
Variable exchange : QueryRewriter.llm_exchange.
Variable searches : nat -> result (list SearchSource.t).
Variable network : nat -> JinaFetcher.http_result.

(** What a returned bundle is made of. *)
Lemma search_returned r :
  Pipeline.search lower json_loads self query user_location user_language
    fetch_top_n max_content_length exchange searches network (Ret r) ->
  SearchResult.query r = query
  /\ NoDup (urls_of (SearchResult.sources r))
  /\ SearchResult.contents r
     = GatherSpec.results_in_order
         (SearchSource.url
            <$> Pipeline.slice_list fetch_top_n (SearchResult.sources r))
         (u8 "15.0") max_content_length network.
Proof.
  unfold Pipeline.search.
  destruct (QueryRewriter.rewrite _ _ _ _ _ _ _) as [plan|e]; [|discriminate].
  destruct (iter_len _) as [n|e]; [|discriminate].
  destruct (search_sources _) as [all_sources|e] eqn:Hs; [|discriminate].
  intros (contents & Hfetch & [= ->]). simpl.
  split; [reflexivity|]. split; [by eapply search_sources_NoDup|].
  by apply fetch_many_results in Hfetch.
Qed.

End WholeRequest.

(** X17: in a bundle that [search] returns, the urls of [sources] are
    pairwise distinct, and [contents] is aligned with the sources chosen
    for fetching: it has one page per source of
    [all_sources[:fetch_top_n]], in the same order and with the same url,
    failed fetches included; so it is no longer than [sources], holds no
    url twice, and for a non-negative [fetch_top_n] has
    [min(fetch_top_n, len(sources))] pages. *)
Theorem search_bundle (lower : str -> str)
    (json_loads : str -> Py.result Py.value) (self : Pipeline.skill)
    (query : str) (user_location : option str) (user_language : str)
    (fetch_top_n max_content_length : Z)
    (exchange : QueryRewriter.llm_exchange)
    (searches : nat -> Py.result (list SearchSource.t))
    (network : nat -> JinaFetcher.http_result) (r : SearchResult.t) :
  Pipeline.search lower json_loads self query user_location user_language
    fetch_top_n max_content_length exchange searches network (Py.Ret r) ->
  SearchResult.query r = query
  /\ NoDup (SearchSpec.urls_of (SearchResult.sources r))
  /\ FetchedContent.url <$> SearchResult.contents r
     = SearchSource.url
         <$> Pipeline.slice_list fetch_top_n (SearchResult.sources r)
  /\ (length (SearchResult.contents r) <= length (SearchResult.sources r))%nat
  /\ NoDup (FetchedContent.url <$> SearchResult.contents r)
  /\ ((0 <= fetch_top_n)%Z ->
      length (SearchResult.contents r)
      = Nat.min (Z.to_nat fetch_top_n) (length (SearchResult.sources r))).
Proof.
  intros Hsearch.
  destruct (search_returned _ _ _ _ _ _ _ _ _ _ _ _ Hsearch)
    as (Hq & Hnd & Hc).
  assert (FetchedContent.url <$> SearchResult.contents r
          = SearchSource.url
              <$> Pipeline.slice_list fetch_top_n (SearchResult.sources r))
    as Hurls by (rewrite Hc; apply results_in_order_urls).
  destruct (slice_list_take fetch_top_n (SearchResult.sources r))
    as (k & Hk & Hpos).
  assert (length (SearchResult.contents r)
          = Nat.min k (length (SearchResult.sources r))) as Hlen.
  { rewrite <- (length_fmap FetchedContent.url), Hurls, length_fmap, Hk.
    apply length_take. }
  repeat split; try done.
  - lia.
  - rewrite Hurls, Hk. unfold SearchSpec.urls_of in Hnd.
    rewrite fmap_take.
    apply (sublist_NoDup _ (SearchSource.url <$> SearchResult.sources r));
      [exact Hnd | apply sublist_take].
  - intros Hn. by rewrite Hlen, (Hpos Hn).
Qed.

(** The request of [Request.bundle]. *)
Lemma request_search :
  Pipeline.search ascii_lower Scenario.no_json Request.self
    Scenario.beijing_weather None (u8 "zh-cn") 4 6000
    (QueryRewriter.RequestFailed Py.TransportError) Request.searches
    Batch.network (Py.Ret Request.bundle).
Proof.
  unfold Pipeline.search.
  assert (QueryRewriter.rewrite ascii_lower Scenario.no_json
            (Pipeline.llm_key Request.self) Scenario.beijing_weather None
            (u8 "zh-cn") (QueryRewriter.RequestFailed Py.TransportError)
          = Py.Ret (QueryRewriter.plan_of_rules
                      (QueryRewriter.mkRulePlan [Scenario.beijing_weather]
                         (u8 "zh-cn") (Some (u8 "w")) (u8 "search")))) as ->
    by (vm_compute; reflexivity).
  cbn [QueryRewriter.search_queries QueryRewriter.plan_of_rules
       QueryRewriter.rule_queries Py.iter_len fmap list_fmap length].
  assert (WebSearchSkill.search_sources (Request.searches <$> seq 0 1)
          = Py.Ret Request.sources) as -> by (vm_compute; reflexivity).
  exists (GatherSpec.results_in_order Batch.urls (u8 "15.0") 6000
            Batch.network).
  split; [|reflexivity].
  apply fetch_many_exists. lia.
Defined.

(** The two pages of [Request.bundle] carry the urls of its two sources. *)
Lemma search_bundle_witness :
  FetchedContent.url <$> SearchResult.contents Request.bundle
  = SearchSource.url
      <$> Pipeline.slice_list 4 (SearchResult.sources Request.bundle).
Proof.
  exact (proj1 (proj2 (proj2
    (search_bundle ascii_lower Scenario.no_json Request.self
       Scenario.beijing_weather None (u8 "zh-cn") 4 6000
       (QueryRewriter.RequestFailed Py.TransportError) Request.searches
       Batch.network Request.bundle request_search)))).
Defined.

(** X18: in a bundle that [search] returns, every reference of
    [get_reference_list] points at a source: the reference with index [k]
    carries the url of the [k]-th source of [sources], so the numbers of
    the ["### Source [k]"] headings and of the snippet listing name the
    same urls. *)
Theorem search_citations (lower : str -> str)
    (json_loads : str -> Py.result Py.value) (self : Pipeline.skill)
    (query : str) (user_location : option str) (user_language : str)
    (fetch_top_n max_content_length : Z)
    (exchange : QueryRewriter.llm_exchange)
    (searches : nat -> Py.result (list SearchSource.t))
    (network : nat -> JinaFetcher.http_result) (r : SearchResult.t) :
  Pipeline.search lower json_loads self query user_location user_language
    fetch_top_n max_content_length exchange searches network (Py.Ret r) ->
  forall ref,
    ref ∈ SearchResult.get_reference_list r ->
    (1 <= Reference.index ref <= length (SearchResult.sources r))%nat
    /\ exists s,
         SearchResult.sources r !! (Reference.index ref - 1)%nat = Some s
         /\ SearchSource.url s = Reference.url ref.
Proof.
  intros Hsearch ref Href.
  destruct (search_returned _ _ _ _ _ _ _ _ _ _ _ _ Hsearch)
    as (_ & _ & Hc).
  assert (FetchedContent.url <$> SearchResult.contents r
          = SearchSource.url
              <$> Pipeline.slice_list fetch_top_n (SearchResult.sources r))
    as Hurls by (rewrite Hc; apply results_in_order_urls).
  destruct (slice_list_take fetch_top_n (SearchResult.sources r))
    as (k & Hk & _).
  rewrite Hk in Hurls.
  apply references_elem in Href as (j & c & Hj & _ & ->). simpl.
  assert ((FetchedContent.url <$> SearchResult.contents r) !! j
          = Some (FetchedContent.url c)) as Hu
    by (by rewrite list_lookup_fmap, Hj).
  rewrite Hurls, list_lookup_fmap in Hu.
  destruct (take k (SearchResult.sources r) !! j) as [s|] eqn:Hs;
    [|discriminate].
  injection Hu as Hu. apply lookup_take_Some in Hs as [Hs _].
  replace (j + 1 - 1)%nat with j by lia.
  split; [apply lookup_lt_Some in Hs; lia|]. by exists s.
Qed.

(** The reference of the page of [Request.bundle] that succeeded. *)
Lemma search_citations_witness :
  exists s,
    SearchResult.sources Request.bundle !! (2 - 1)%nat = Some s
    /\ SearchSource.url s = u8 "https://b.com".
Proof.
  refine (proj2 (search_citations ascii_lower Scenario.no_json Request.self
                   Scenario.beijing_weather None (u8 "zh-cn") 4 6000
                   (QueryRewriter.RequestFailed Py.TransportError)
                   Request.searches Batch.network
                   Request.bundle request_search
                   (Reference.mk 2 (u8 "B") (u8 "https://b.com")) _)).
  vm_compute. left.
Defined.

(** X19: without LLM key, when every search returns, [search] returns a
    bundle whatever the fetches come to: a failed fetch gives a failed
    page and never an error of the request. *)
Theorem search_returns_without_key (lower : str -> str)
    (json_loads : str -> Py.result Py.value) (self : Pipeline.skill)
    (query : str) (user_location : option str) (user_language : str)
    (fetch_top_n max_content_length : Z)
    (exchange : QueryRewriter.llm_exchange)
    (results : nat -> list SearchSource.t)
    (network : nat -> JinaFetcher.http_result) :
  Py.given (Pipeline.llm_key self) = None ->
  exists r,
    Pipeline.search lower json_loads self query user_location user_language
      fetch_top_n max_content_length exchange (fun i => Py.Ret (results i))
      network (Py.Ret r)
    /\ SearchResult.search_queries r
       = Py.VList
           (Py.VStr
              <$> QueryRewriter.rule_queries
                    (QueryRewriter.rewrite_with_rules lower query user_location
                       user_language))
    /\ Forall2 (fun page i =>
                  FetchedContent.success page
                  = match network i with
                    | JinaFetcher.Response _ => true
                    | _ => false
                    end)
               (SearchResult.contents r)
               (seq 0 (length (SearchResult.contents r))).
Proof.
  intros Hkey.
  set (qs := QueryRewriter.rule_queries
               (QueryRewriter.rewrite_with_rules lower query user_location
                  user_language)).
  set (all := (WebSearchSkill.merge_sources ([], ∅)
                 (concat (results <$> seq 0 (length qs)))).1).
  set (urls := SearchSource.url <$> Pipeline.slice_list fetch_top_n all).
  exists (SearchResult.mk query (Py.VList (Py.VStr <$> qs)) all
            (GatherSpec.results_in_order urls (u8 "15.0") max_content_length
               network)).
  split; [|split; [reflexivity|]].
  - unfold Pipeline.search, QueryRewriter.rewrite. rewrite Hkey.
    cbn [QueryRewriter.search_queries QueryRewriter.plan_of_rules Py.iter_len].
    fold qs. rewrite length_fmap.
    replace ((fun i => Py.Ret (results i)) <$> seq 0 (length qs))
      with (Py.Ret <$> (results <$> seq 0 (length qs)))
      by (by rewrite <- list_fmap_compose).
    unfold WebSearchSkill.search_sources. rewrite search_loop_ok. simpl.
    eexists. split; [apply fetch_many_exists; lia | reflexivity].
  - simpl. unfold GatherSpec.results_in_order.
    apply Forall2_same_length_lookup. split; [by rewrite length_seq|].
    intros i page k Hpage Hk.
    apply lookup_seq in Hk as [-> _]. simpl.
    rewrite list_lookup_imap in Hpage.
    destruct (urls !! i); [|discriminate]. injection Hpage as <-.
    by destruct (network i).
Qed.

(** [Request.self] holds no LLM key. *)
Lemma search_returns_without_key_witness :
  exists r,
    Pipeline.search ascii_lower Scenario.no_json Request.self
      Scenario.beijing_weather None (u8 "zh-cn") 4 6000
      (QueryRewriter.RequestFailed Py.TransportError)
      (fun i => Py.Ret (Request.sources)) Batch.network (Py.Ret r).
Proof.
  destruct (search_returns_without_key ascii_lower Scenario.no_json
              Request.self Scenario.beijing_weather None (u8 "zh-cn") 4 6000
              (QueryRewriter.RequestFailed Py.TransportError)
              (fun _ => Request.sources) Batch.network eq_refl)
    as (r & Hr & _).
  by exists r.
Defined.

(** X4: a batch never gets stuck: from every state that a run of
    [fetch_many] reaches, the run can go on until every task is done, and
    it then returns the results in input order. *)
Theorem fetch_many_no_deadlock (urls : list str) (max_concurrent : Z)
    (timeout : str) (max_length : Z)
    (network : nat -> JinaFetcher.http_result)
    (st : JinaFetcher.gather_state) :
  (0 < max_concurrent)%Z ->
  rtc (JinaFetcher.gather_step urls max_concurrent timeout max_length network)
      (JinaFetcher.gather_init urls) st ->
  exists st',
    rtc (JinaFetcher.gather_step urls max_concurrent timeout max_length
           network) st st'
    /\ JinaFetcher.gather_done st'
    /\ JinaFetcher.gather_result st'
       = Some (GatherSpec.results_in_order urls timeout max_length network).
Proof.
  intros Hpos Hrun. destruct st as [w r s].
  destruct (gather_drain urls max_concurrent timeout max_length network r w s)
    as [s1 Hdrain].
  destruct (gather_serve urls max_concurrent timeout max_length network w
              Hpos s1) as [s2 Hserve].
  exists (JinaFetcher.GatherState [] [] s2).
  assert (rtc (JinaFetcher.gather_step urls max_concurrent timeout max_length
                 network)
              (JinaFetcher.GatherState w r s)
              (JinaFetcher.GatherState [] [] s2)) as Hgo
    by (etrans; eassumption).
  split; [exact Hgo|]. split; [by split|].
  apply gather_done_result; [|by split].
  eapply gather_inv_run; [exact Hgo|].
  eapply gather_inv_run; [exact Hrun | apply gather_inv_init].
Qed.

(** The start of the batch of [Batch.urls]. *)
Lemma fetch_many_no_deadlock_witness :
  exists st',
    rtc (JinaFetcher.gather_step Batch.urls 4 (u8 "15.0") 6000 Batch.network)
        (JinaFetcher.gather_init Batch.urls) st'
    /\ JinaFetcher.gather_done st'.
Proof.
  destruct (fetch_many_no_deadlock Batch.urls 4 (u8 "15.0") 6000 Batch.network
              (JinaFetcher.gather_init Batch.urls))
    as (st' & Hrun & Hdone & _).
  - lia.
  - apply rtc_refl.
  - by exists st'.
Defined.
